(** * Huffman compression project: the Python ctypes bridge and its demo

    A shallow embedding of [python/wrapper.py] (the codec bridge: it
    resolves and loads the native library, binds its two entry points and
    wraps them as [compress] and [decompress]) and of [python/demo.py]
    (the round-trip harness [run_demo] and the script's entry guard).

    The native library, the dynamic loader, [os.path], the file system,
    [filecmp] and the console are collaborators of the two modules.  The
    native library and the loader are left arbitrary; the others are given
    an executable model:
    - a Python [str] is a list of code points, [bytes] a list of bytes;
    - the file system maps a path to the content of the regular file
      there (no directories, links or permissions);
    - [print] appends a line to the console and never fails;
    - every effect an operation has is threaded through a [world], which
      also keeps a trace of the calls that leave the interpreter. *)

From Stdlib Require Import ZArith NArith List String Ascii Bool Lia.
From Stdlib.Strings Require Import Byte.
From stdpp Require Import base option countable gmap.
Import ListNotations.

Local Open Scope list_scope.

(** ** Python strings and bytes *)

(** A [str] is a sequence of Unicode code points (at most [0x10FFFF] each);
    a [bytes] object is a sequence of bytes. *)
Abbreviation str := (list N) (only parsing).
Abbreviation bytes := (list byte) (only parsing).

(** A string literal of the source (all of them are ASCII). *)
Definition lit (s : string) : str :=
  map N_of_ascii (list_ascii_of_string s).
Arguments lit s%_string : simpl never.

(** [s.startswith(prefix)] *)
Fixpoint startswith (s prefix : str) {struct prefix} : bool :=
  match prefix with
  | [] => true
  | c :: prefix' =>
      match s with
      | [] => false
      | d :: s' => (d =? c)%N && startswith s' prefix'
      end
  end.

(** [s.endswith(suffix)] *)
Definition endswith (s suffix : str) : bool :=
  startswith (rev s) (rev suffix).

Definition byte_of_N (n : N) : byte :=
  match Byte.of_N n with
  | Some b => b
  | None => x00
  end.

Definition is_surrogate (ch : N) : bool :=
  ((0xD800 <=? ch) && (ch <=? 0xDFFF))%N.

(** The UTF-8 encoder with the [strict] error handler, one code point:
    one to four bytes, and no encoding for a surrogate. *)
Definition encode_char (ch : N) : option bytes :=
  if (ch <? 0x80)%N then
    Some [byte_of_N ch]
  else if (ch <? 0x800)%N then
    Some [byte_of_N (N.lor 0xC0 (N.shiftr ch 6));
          byte_of_N (N.lor 0x80 (N.land ch 0x3F))]
  else if (ch <? 0x10000)%N then
    if is_surrogate ch then None
    else
      Some [byte_of_N (N.lor 0xE0 (N.shiftr ch 12));
            byte_of_N (N.lor 0x80 (N.land (N.shiftr ch 6) 0x3F));
            byte_of_N (N.lor 0x80 (N.land ch 0x3F))]
  else
    Some [byte_of_N (N.lor 0xF0 (N.shiftr ch 18));
          byte_of_N (N.lor 0x80 (N.land (N.shiftr ch 12) 0x3F));
          byte_of_N (N.lor 0x80 (N.land (N.shiftr ch 6) 0x3F));
          byte_of_N (N.lor 0x80 (N.land ch 0x3F))].

(** [s.encode('utf-8')]: [None] stands for [UnicodeEncodeError]. *)
Fixpoint encode_utf8 (s : str) : option bytes :=
  match s with
  | [] => Some []
  | ch :: rest =>
      match encode_char ch, encode_utf8 rest with
      | Some b, Some bs => Some (b ++ bs)
      | _, _ => None
      end
  end.

(** What a [c_char_p] parameter hands to the native side for a [bytes]
    argument: the object's buffer, which ends in a NUL byte. *)
Definition c_char_p (b : bytes) : bytes := b ++ [x00].

(** Content equality of two files, as [filecmp._do_cmp] reads them. *)
Fixpoint bytes_eqb (a b : bytes) : bool :=
  match a, b with
  | [], [] => true
  | x :: a', y :: b' => Byte.eqb x y && bytes_eqb a' b'
  | _, _ => false
  end.

(** ** The world: files, console and the trace of outward calls *)

Inductive event :=
| EvLoad (lib_path : str)
| EvForeign (symbol : string) (c_input c_output : bytes)
| EvCmp (f1 f2 : str)
| EvRemove (path : str).

Record world := World {
  files : gmap (list N) (list byte);
  stdout : list (list N);
  trace : list event
}.

Inductive exn :=
| UnicodeEncodeError
| FileNotFoundError
| OSError (msg : str)
| AttributeError
| SystemExit (code : Z).

(** [FileNotFoundError] is a subclass of [OSError]. *)
Definition is_OSError (e : exn) : option str :=
  match e with
  | OSError msg => Some msg
  | FileNotFoundError => Some (lit "No such file or directory")
  | _ => None
  end.

Definition is_FileNotFoundError (e : exn) : bool :=
  match e with
  | FileNotFoundError => true
  | _ => false
  end.

Inductive outcome (A : Type) :=
| Ret (a : A)
| Raise (e : exn).
Arguments Ret {A} a.
Arguments Raise {A} e.

(** A Python computation: it returns or raises, and changes the world. *)
Definition M (A : Type) : Type := world -> outcome A * world.

Definition pure {A} (a : A) : M A := fun w => (Ret a, w).

Definition raise {A} (e : exn) : M A := fun w => (Raise e, w).

Definition bind {A B} (m : M A) (k : A -> M B) : M B :=
  fun w =>
    match m w with
    | (Ret a, w') => k a w'
    | (Raise e, w') => (Raise e, w')
    end.

(** [try: m  except <class>: h]: [handler e] is the handler's body when
    the [except] clause matches [e]. *)
Definition try_except {A} (m : M A) (handler : exn -> option (M A)) : M A :=
  fun w =>
    match m w with
    | (Ret a, w') => (Ret a, w')
    | (Raise e, w') =>
        match handler e with
        | Some h => h w'
        | None => (Raise e, w')
        end
    end.

Declare Scope py_scope.
Delimit Scope py_scope with py.
Notation "x <- m ;; k" := (bind m (fun x => k))
  (at level 20, m at level 99, k at level 200, only parsing) : py_scope.
Notation "m ;; k" := (bind m (fun _ => k))
  (at level 100, k at level 200, only parsing, right associativity) : py_scope.
Local Open Scope py_scope.

Definition print (line : str) : M unit :=
  fun w =>
    (Ret tt, {| files := files w; stdout := stdout w ++ [line]; trace := trace w |}).

Definition log (e : event) : M unit :=
  fun w =>
    (Ret tt, {| files := files w; stdout := stdout w; trace := trace w ++ [e] |}).

(** [sys.exit(code)] raises [SystemExit]. *)
Definition sys_exit {A} (code : Z) : M A := raise (SystemExit code).

(** [os.path.exists(path)] *)
Definition os_path_exists (path : str) : M bool :=
  fun w =>
    (Ret (match files w !! path with Some _ => true | None => false end), w).

(** [os.remove(path)]: on the regular files of this file system a removal
    fails for a missing path only. *)
Definition os_remove (path : str) : M unit :=
  log (EvRemove path) ;;
  fun w =>
    match files w !! path with
    | Some _ =>
        (Ret tt, {| files := delete path (files w); stdout := stdout w; trace := trace w |})
    | None => (Raise FileNotFoundError, w)
    end.

(** [filecmp.cmp(f1, f2, shallow=False)]: both files are [stat]ed (a
    missing one raises [FileNotFoundError]), then their contents are
    compared. *)
Definition filecmp_cmp (f1 f2 : str) : M bool :=
  log (EvCmp f1 f2) ;;
  fun w =>
    match files w !! f1, files w !! f2 with
    | Some b1, Some b2 => (Ret (bytes_eqb b1 b2), w)
    | _, _ => (Raise FileNotFoundError, w)
    end.

(** ** The native library *)

(** A native entry point takes two C strings and returns an [int]: it
    reads its two NUL-terminated arguments, does what it likes to the files
    and returns a status. *)
Definition native_fn : Type :=
  bytes -> bytes -> gmap (list N) (list byte) -> Z * gmap (list N) (list byte).

(** A loaded library ([ctypes.CDLL] object): the symbols it exports. *)
Record cdll := CDLL {
  dlsym : string -> option native_fn
}.

(** Calling a bound entry point through ctypes. *)
Definition foreign_call (name : string) (f : native_fn)
    (c_input c_output : bytes) : M Z :=
  fun w =>
    let '(status, files') := f (c_char_p c_input) (c_char_p c_output) (files w) in
    (Ret status,
     {| files := files'; stdout := stdout w;
        trace := trace w ++ [EvForeign name (c_char_p c_input) (c_char_p c_output)] |}).

(** ** [os.path] *)

(** [os.path] is [posixpath] or [ntpath], by platform. *)
Class OsPath := {
  os_path_join : str -> list str -> str;
  os_path_dirname : str -> str
}.

Module posixpath.

Definition sep : N := 47.

Definition join1 (path b : str) : str :=
  if startswith b [sep] then b
  else if match path with [] => true | _ => endswith path [sep] end then path ++ b
  else path ++ [sep] ++ b.

Definition join (a : str) (p : list str) : str :=
  fold_left join1 p a.

Fixpoint drop_until_sep (r : str) : str :=
  match r with
  | [] => []
  | c :: r' => if (c =? sep)%N then r else drop_until_sep r'
  end.

Fixpoint lstrip_sep (r : str) : str :=
  match r with
  | [] => []
  | c :: r' => if (c =? sep)%N then lstrip_sep r' else r
  end.

Definition dirname (p : str) : str :=
  let rhead := drop_until_sep (rev p) in
  match lstrip_sep rhead with
  | [] => rev rhead
  | stripped => rev stripped
  end.

#[export] Instance os_path : OsPath :=
  {| os_path_join := join; os_path_dirname := dirname |}.

End posixpath.

(** ** [wrapper.py] *)

(** What the interpreter gives a run: the platform identifier, the two
    modules' [__file__] and the dynamic loader behind [ctypes.CDLL] (an
    error message when it rejects the file). *)
Record env := Env {
  sys_platform : str;
  wrapper_file : str;
  demo_file : str;
  dlopen : str -> gmap (list N) (list byte) -> str + cdll
}.

(** [ctypes.CDLL(path)] *)
Definition ctypes_CDLL (E : env) (path : str) : M cdll :=
  log (EvLoad path) ;;
  fun w =>
    match dlopen E path (files w) with
    | inl msg => (Raise (OSError msg), w)
    | inr lib => (Ret lib, w)
    end.

(** Attribute access on a [CDLL] object: the symbol, or [AttributeError]. *)
Definition getattr (lib : cdll) (name : string) : M native_fn :=
  match dlsym lib name with
  | Some f => pure f
  | None => raise AttributeError
  end.

(** [s.encode('utf-8')] as a computation. *)
Definition str_encode (s : str) : M bytes :=
  match encode_utf8 s with
  | Some b => pure b
  | None => raise UnicodeEncodeError
  end.

(** The module's global [libhuffman] once both prototypes are declared. *)
Record bound_library := Bound {
  api_compress_file : native_fn;
  api_decompress_file : native_fn
}.

(** Lines 8-15. *)
Definition lib_name (platform : str) : str :=
  let lib_name := lit "libhuffman.so" in
  if startswith platform (lit "win") then lit "libhuffman.dll"
  else if startswith platform (lit "darwin") then lit "libhuffman.dylib"
  else lib_name.

Section Program.

Context {os_path : OsPath}.
Variable E : env.

(** Line 19. *)
Definition lib_path : str :=
  os_path_join (os_path_dirname (wrapper_file E))
    [lit ".."; lit "bin"; lib_name (sys_platform E)].

(** The module body, lines 8-46: what [import wrapper] runs. *)
Definition import_wrapper : M bound_library :=
  found <- os_path_exists lib_path ;;
  (if negb found then
     print (lit "Error: Shared library not found at " ++ lib_path) ;;
     print (lit "Please compile the C code first by running 'make lib' or 'make all' in the root directory.") ;;
     sys_exit 1
   else pure tt) ;;
  libhuffman <-
    try_except (ctypes_CDLL E lib_path)
      (fun e =>
         match is_OSError e with
         | Some msg =>
             Some (print (lit "Error loading C library: " ++ msg) ;;
                   print (lit "This can happen if you are trying to run this on Windows *without* WSL.") ;;
                   sys_exit 1)
         | None => None
         end) ;;
  f_compress <- getattr libhuffman "api_compress_file" ;;
  f_decompress <- getattr libhuffman "api_decompress_file" ;;
  pure {| api_compress_file := f_compress; api_decompress_file := f_decompress |}.

(** Lines 51-76. *)
Definition compress (libhuffman : bound_library) (input_path output_path : str) : M bool :=
  print (lit "[Python] Calling C function to compress '" ++ input_path ++ lit "'...") ;;
  c_input <- str_encode input_path ;;
  c_output <- str_encode output_path ;;
  ret <- foreign_call "api_compress_file" (api_compress_file libhuffman) c_input c_output ;;
  if (ret =? 0)%Z then
    print (lit "[Python] C compression successful.") ;;
    pure true
  else
    print (lit "[Python] C compression failed.") ;;
    pure false.

(** Lines 78-103. *)
Definition decompress (libhuffman : bound_library) (input_path output_path : str) : M bool :=
  print (lit "[Python] Calling C function to decompress '" ++ input_path ++ lit "'...") ;;
  c_input <- str_encode input_path ;;
  c_output <- str_encode output_path ;;
  ret <- foreign_call "api_decompress_file" (api_decompress_file libhuffman) c_input c_output ;;
  if (ret =? 0)%Z then
    print (lit "[Python] C decompression successful.") ;;
    pure true
  else
    print (lit "[Python] C decompression failed.") ;;
    pure false.

(** ** [demo.py] *)

Definition base_dir : str := os_path_dirname (demo_file E).
Definition test_files_dir : str := os_path_join base_dir [lit ".."; lit "test_files"].
Definition input_file : str := os_path_join test_files_dir [lit "sample.txt"].
Definition compressed_file : str := os_path_join test_files_dir [lit "sample_py.huff"].
Definition restored_file : str := os_path_join test_files_dir [lit "restored_py.txt"].

(** The three reports of step 3. *)
Definition msg_identical : str :=
  lit "SUCCESS: Restored file is identical to the original.".
Definition msg_different : str :=
  lit "FAILURE: Restored file is different from the original.".
Definition msg_not_created : str :=
  lit "FAILURE: Output file was not created.".

(** Lines 38-45. *)
Definition verify : M unit :=
  print (lit "[Python] Verifying integrity of '" ++ restored_file ++ lit "'...") ;;
  try_except
    (same <- filecmp_cmp input_file restored_file ;;
     if same then print msg_identical else print msg_different)
    (fun e =>
       if is_FileNotFoundError e then Some (print msg_not_created) else None).

(** Lines 48-52. *)
Definition cleanup : M unit :=
  print (lit "[Python] Cleaning up demo files...") ;;
  c <- os_path_exists compressed_file ;;
  (if c then os_remove compressed_file else pure tt) ;;
  r <- os_path_exists restored_file ;;
  (if r then os_remove restored_file else pure tt).

(** Lines 5-52. *)
Definition run_demo (wrapper : bound_library) : M unit :=
  print (lit "--- Running Python CTypes Wrapper Demo ---") ;;
  found <- os_path_exists input_file ;;
  if negb found then
    print (lit "Error: 'test_files/sample.txt' not found.") ;;
    print (lit "Please create it before running the demo.") ;;
    pure tt
  else
    success_compress <- compress wrapper input_file compressed_file ;;
    if negb success_compress then
      print (lit "Demo failed during compression.") ;;
      pure tt
    else
      success_decompress <- decompress wrapper compressed_file restored_file ;;
      if negb success_decompress then
        print (lit "Demo failed during decompression.") ;;
        pure tt
      else
        verify ;;
        cleanup.

(** Line 57. *)
Definition guard_lib_path : str :=
  os_path_join (os_path_dirname (demo_file E))
    [lit ".."; lit "bin"; lit "libhuffman.so"].

(** Running [demo.py] as a script: line 1 imports [wrapper], lines
    54-62 are the entry guard. *)
Definition demo_main : M unit :=
  wrapper <- import_wrapper ;;
  found <- os_path_exists guard_lib_path ;;
  if negb found then
    print (lit "Error: 'bin/libhuffman.so' not found.") ;;
    print (lit "Please run 'make lib' or 'make all' in the root directory first.")
  else
    run_demo wrapper.

End Program.

(** ** Reading a run's trace *)

Definition is_call (name : string) (e : event) : bool :=
  match e with
  | EvForeign symbol _ _ => String.eqb symbol name
  | _ => false
  end.

Definition is_foreign (e : event) : bool :=
  match e with
  | EvForeign _ _ _ => true
  | _ => false
  end.

Definition is_cmp (e : event) : bool :=
  match e with
  | EvCmp _ _ => true
  | _ => false
  end.

Definition is_load (e : event) : bool :=
  match e with
  | EvLoad _ => true
  | _ => false
  end.

(** How often the trace shows a call of the entry point [name]. *)
Definition calls_to (name : string) (t : list event) : nat :=
  length (List.filter (is_call name) t).

(** How often the trace shows a file comparison. *)
Definition comparisons (t : list event) : nat :=
  length (List.filter is_cmp t).

(** The events a computation added to the trace of the world it started in. *)
Definition new_events {A} (w : world) (r : outcome A * world) : list event :=
  drop (length (trace w)) (trace (snd r)).

(** The arguments a foreign call was given, whichever entry point it was. *)
Definition call_args (e : event) : option (bytes * bytes) :=
  match e with
  | EvForeign _ c_input c_output => Some (c_input, c_output)
  | _ => None
  end.

(** ** The specification's wording, for comparison with the code *)

(** The bridge operation of section 4.1, for either entry point: both
    paths are encoded as NUL-terminated UTF-8 before the entry point is
    invoked, an encoding failure stops the operation first, and the status
    is read as [0] for success and anything else for failure.  The result
    is the outcome, the files afterwards and the argument pairs handed to
    the entry point. *)
Definition spec_bridge_operation (entry : native_fn) (input_path output_path : str)
    (fs : gmap (list N) (list byte))
  : outcome bool * gmap (list N) (list byte) * list (option (bytes * bytes)) :=
  match encode_utf8 input_path, encode_utf8 output_path with
  | Some ci, Some co =>
      let '(status, fs') := entry (ci ++ [x00]) (co ++ [x00]) fs in
      (Ret (match status with 0%Z => true | _ => false end), fs',
       [Some (ci ++ [x00], co ++ [x00])])
  | _, _ => (Raise UnicodeEncodeError, fs, [])
  end.

(** The three platform families of section 4.1, recognised by the prefix
    of the platform identifier; [None] is an unrecognised platform. *)
Inductive family := LinuxLike | WindowsLike | MacLike.

Definition spec_platform_family (platform : str) : option family :=
  if startswith platform (lit "linux") then Some LinuxLike
  else if startswith platform (lit "win") then Some WindowsLike
  else if startswith platform (lit "darwin") then Some MacLike
  else None.

(** The three outcomes step 3 can report. *)
Inductive verdict := Identical | Different | NotCreated.

Definition report (v : verdict) : str :=
  match v with
  | Identical => msg_identical
  | Different => msg_different
  | NotCreated => msg_not_created
  end.

(** The verdict step 3 reaches on given files: the two contents compared
    in full, or no comparison when a file is missing. *)
Definition verdict_on (original restored : str) (fs : gmap (list N) (list byte)) : verdict :=
  match fs !! original, fs !! restored with
  | Some a, Some b => if bytes_eqb a b then Identical else Different
  | _, _ => NotCreated
  end.

(** The two lines printed when the library file is missing (lines 23-24
    of [wrapper.py]). *)
Definition not_found_lines `{OsPath} (E : env) : list str :=
  [lit "Error: Shared library not found at " ++ lib_path E;
   lit "Please compile the C code first by running 'make lib' or 'make all' in the root directory."].

(** The two lines the entry guard prints (lines 59-60 of [demo.py]). *)
Definition guard_lines : list str :=
  [lit "Error: 'bin/libhuffman.so' not found.";
   lit "Please run 'make lib' or 'make all' in the root directory first."].

(** The first line a run prints. *)
Definition banner : str := lit "--- Running Python CTypes Wrapper Demo ---".

(** ** A fake native library and a small world, for concrete runs *)

Module Fixture.

(** The path a C string names (ASCII paths only). *)
Fixpoint path_of_cstr (c : bytes) : str :=
  match c with
  | [] => []
  | b :: c' => if Byte.eqb b x00 then [] else Byte.to_N b :: path_of_cstr c'
  end.

(** An entry point that copies its input file to its output path and
    reports the given status. *)
Definition copying_entry (status : Z) : native_fn :=
  fun c_input c_output fs =>
    match fs !! path_of_cstr c_input with
    | Some content => (status, <[path_of_cstr c_output := content]> fs)
    | None => (status, fs)
    end.

(** An entry point that writes fixed bytes to its output path. *)
Definition writing_entry (status : Z) (content : bytes) : native_fn :=
  fun _ c_output fs => (status, <[path_of_cstr c_output := content]> fs).

(** An entry point that touches nothing and reports the given status. *)
Definition idle_entry (status : Z) : native_fn :=
  fun _ _ fs => (status, fs).

Definition fake_cdll (c d : native_fn) : cdll :=
  {| dlsym := fun name =>
       if String.eqb name "api_compress_file" then Some c
       else if String.eqb name "api_decompress_file" then Some d
       else None |}.

Definition fake_library (c d : native_fn) : bound_library :=
  {| api_compress_file := c; api_decompress_file := d |}.

(** A POSIX installation under [/repo] whose loader accepts any file. *)
Definition fake_env (platform : string) (c d : native_fn) : env :=
  {| sys_platform := lit platform;
     wrapper_file := lit "/repo/python/wrapper.py";
     demo_file := lit "/repo/python/demo.py";
     dlopen := fun _ _ => inr (fake_cdll c d) |}.

Definition sample : bytes := ["a"; "b"; "r"; "a"]%byte.

Definition fresh (fs : gmap (list N) (list byte)) : world :=
  {| files := fs; stdout := []; trace := [] |}.

(** The fixture and a library built under the given file name. *)
Definition checkout (library : string) : gmap (list N) (list byte) :=
  <[lit "/repo/python/../test_files/sample.txt" := sample]>
    (<[lit "/repo/python/../bin/" ++ lit library := []]> ∅).

(** Named runs. *)
Definition healthy_library : bound_library :=
  fake_library (copying_entry 0) (copying_entry 0).

(** Compression works, decompression reports status 1 and writes nothing. *)
Definition decompress_fails : bound_library :=
  fake_library (copying_entry 0) (idle_entry 1).

(** Compression writes part of its output, then reports status 2. *)
Definition compress_fails : bound_library :=
  fake_library (writing_entry 2 ["a"]%byte) (copying_entry 0).

Definition install (platform : string) (lib : bound_library) : env :=
  fake_env platform (api_compress_file lib) (api_decompress_file lib).

(** A checkout with the library built but no fixture. *)
Definition no_fixture : gmap (list N) (list byte) :=
  <[lit "/repo/python/../bin/libhuffman.so" := []]> ∅.

(** A path with a lone surrogate, which UTF-8 cannot encode. *)
Definition surrogate_path : str := lit "/tmp/" ++ [0xD800%N].

End Fixture.

(** The removals step 4 performs on given files: each transient file is
    removed when, and only when, it is there at that moment. *)
Definition cleanup_removals `{OsPath} (E : env) (fs : gmap (list N) (list byte))
  : list event :=
  (match fs !! compressed_file E with
   | Some _ => [EvRemove (compressed_file E)]
   | None => []
   end) ++
  (match delete (compressed_file E) fs !! restored_file E with
   | Some _ => [EvRemove (restored_file E)]
   | None => []
   end).

(** ** [wrapper.py] run as a script *)

(** Lines 106-107, after the module body: the notice printed when
    [wrapper.py] itself is the script. *)
Definition wrapper_main `{OsPath} (E : env) : M unit :=
  libhuffman <- import_wrapper E ;;
  print (lit "This is a wrapper module. Run demo.py to see it in action.").

(** ** Further installations, for concrete runs *)

Module Scenario.

(** A loader that rejects every file with the given message. *)
Definition rejecting_env (platform : string) (msg : string) : env :=
  {| sys_platform := lit platform;
     wrapper_file := lit "/repo/python/wrapper.py";
     demo_file := lit "/repo/python/demo.py";
     dlopen := fun _ _ => inl (lit msg) |}.

(** A library that exports [api_compress_file] alone. *)
Definition compress_only : cdll :=
  {| dlsym := fun name =>
       if String.eqb name "api_compress_file" then Some (Fixture.idle_entry 0)
       else None |}.

Definition compress_only_env (platform : string) : env :=
  {| sys_platform := lit platform;
     wrapper_file := lit "/repo/python/wrapper.py";
     demo_file := lit "/repo/python/demo.py";
     dlopen := fun _ _ => inr compress_only |}.

(** A codec that restores something else than it was given. *)
Definition lossy_library : bound_library :=
  Fixture.fake_library (Fixture.copying_entry 0)
    (Fixture.writing_entry 0 ["a"; "b"]%byte).

(** A macOS checkout in which a Linux build of the library was left
    beside the platform's own: the fixture, [libhuffman.dylib] and
    [libhuffman.so]. *)
Definition both_libraries : gmap (list N) (list byte) :=
  <[lit "/repo/python/../bin/libhuffman.so" := []]>
    (Fixture.checkout "libhuffman.dylib").

End Scenario.

(** * Properties *)

(** ** Basic facts *)

Lemma bytes_eqb_eq (a b : list byte) : bytes_eqb a b = true <-> a = b.
Proof.
  revert b; induction a as [|x a IH]; intros [|y b]; simpl; try easy.
  rewrite andb_true_iff, IH. split.
  - intros [Hxy ->]. apply Byte.byte_dec_bl in Hxy. now subst.
  - intros [= -> ->]. split; [now apply Byte.byte_dec_lb | reflexivity].
Qed.

Lemma bytes_eqb_neq (a b : list byte) : bytes_eqb a b = false <-> a <> b.
Proof.
  rewrite <- bytes_eqb_eq. destruct (bytes_eqb a b); split; congruence.
Qed.

Lemma new_events_app {A} (w : world) (o : outcome A) (w' : world) (evs : list event) :
  trace w' = trace w ++ evs -> new_events w (o, w') = evs.
Proof. unfold new_events; simpl. intros ->. apply drop_app_length. Qed.

Lemma calls_to_app (name : string) (t evs : list event) :
  calls_to name (t ++ evs) = calls_to name t + calls_to name evs.
Proof. unfold calls_to. now rewrite List.filter_app, List.length_app. Qed.

Lemma comparisons_app (t evs : list event) :
  comparisons (t ++ evs) = comparisons t + comparisons evs.
Proof. unfold comparisons. now rewrite List.filter_app, List.length_app. Qed.

(** The encoder rejects a code point exactly when it is a surrogate. *)
Lemma encode_char_None (ch : N) : encode_char ch = None <-> is_surrogate ch = true.
Proof.
  unfold encode_char, is_surrogate.
  destruct (ch <? 0x80)%N eqn:H1; [|destruct (ch <? 0x800)%N eqn:H2;
    [|destruct (ch <? 0x10000)%N eqn:H3]].
  - apply N.ltb_lt in H1. split; [discriminate|].
    rewrite andb_true_iff, !N.leb_le. lia.
  - apply N.ltb_lt in H2. split; [discriminate|].
    rewrite andb_true_iff, !N.leb_le. lia.
  - destruct ((0xD800 <=? ch) && (ch <=? 0xDFFF))%N; split; congruence.
  - apply N.ltb_ge in H3. split; [discriminate|].
    rewrite andb_true_iff, !N.leb_le. lia.
Qed.

(** [s.encode('utf-8')] fails exactly on a string that holds a surrogate:
    these are the characters UTF-8 cannot represent. *)
Lemma encode_utf8_None (s : list N) :
  encode_utf8 s = None <-> List.existsb is_surrogate s = true.
Proof.
  induction s as [|ch s IH]; simpl; [split; discriminate|].
  rewrite orb_true_iff, <- IH, <- encode_char_None.
  destruct (encode_char ch), (encode_utf8 s); split; intros H;
    try discriminate; try reflexivity; tauto || (destruct H; discriminate).
Qed.

(** Run the monadic operations of a computation on the world in the goal. *)
Ltac py_run :=
  cbv beta iota zeta delta
    [bind pure raise print log sys_exit os_path_exists os_remove filecmp_cmp
     try_except str_encode foreign_call ctypes_CDLL getattr
     is_FileNotFoundError is_OSError];
  cbn [files stdout trace fst snd negb].

(** ** The bridge operations, step by step *)

(** What [compress] does, in one equation. *)
Lemma compress_run (lib : bound_library) (input_path output_path : list N) (w : world) :
  compress lib input_path output_path w =
  let calling :=
    lit "[Python] Calling C function to compress '" ++ input_path ++ lit "'..." in
  match encode_utf8 input_path, encode_utf8 output_path with
  | Some ci, Some co =>
      let '(status, fs') := api_compress_file lib (c_char_p ci) (c_char_p co) (files w) in
      (Ret (status =? 0)%Z,
       {| files := fs';
          stdout := stdout w ++ [calling] ++
            [if (status =? 0)%Z then lit "[Python] C compression successful."
             else lit "[Python] C compression failed."];
          trace := trace w ++ [EvForeign "api_compress_file" (c_char_p ci) (c_char_p co)] |})
  | _, _ =>
      (Raise UnicodeEncodeError,
       {| files := files w; stdout := stdout w ++ [calling]; trace := trace w |})
  end.
Proof.
  unfold compress, bind, print, str_encode, foreign_call, pure, raise; simpl.
  destruct (encode_utf8 input_path) as [ci|]; simpl; [|reflexivity].
  destruct (encode_utf8 output_path) as [co|]; simpl; [|reflexivity].
  destruct (api_compress_file lib (c_char_p ci) (c_char_p co) (files w)) as [status fs'].
  simpl. destruct (status =? 0)%Z; simpl; now rewrite <- app_assoc.
Qed.

(** What [decompress] does, in one equation. *)
Lemma decompress_run (lib : bound_library) (input_path output_path : list N) (w : world) :
  decompress lib input_path output_path w =
  let calling :=
    lit "[Python] Calling C function to decompress '" ++ input_path ++ lit "'..." in
  match encode_utf8 input_path, encode_utf8 output_path with
  | Some ci, Some co =>
      let '(status, fs') := api_decompress_file lib (c_char_p ci) (c_char_p co) (files w) in
      (Ret (status =? 0)%Z,
       {| files := fs';
          stdout := stdout w ++ [calling] ++
            [if (status =? 0)%Z then lit "[Python] C decompression successful."
             else lit "[Python] C decompression failed."];
          trace := trace w ++ [EvForeign "api_decompress_file" (c_char_p ci) (c_char_p co)] |})
  | _, _ =>
      (Raise UnicodeEncodeError,
       {| files := files w; stdout := stdout w ++ [calling]; trace := trace w |})
  end.
Proof.
  unfold decompress, bind, print, str_encode, foreign_call, pure, raise; simpl.
  destruct (encode_utf8 input_path) as [ci|]; simpl; [|reflexivity].
  destruct (encode_utf8 output_path) as [co|]; simpl; [|reflexivity].
  destruct (api_decompress_file lib (c_char_p ci) (c_char_p co) (files w)) as [status fs'].
  simpl. destruct (status =? 0)%Z; simpl; now rewrite <- app_assoc.
Qed.

Lemma status_eqb_match (status : Z) :
  (status =? 0)%Z = match status with 0%Z => true | _ => false end.
Proof. now destruct status. Qed.

(** C3: [compress] returns [True] exactly when its call of the bound entry
    point [api_compress_file] returns status [0], and [False] exactly when
    that call returns any other status, whatever the value; [decompress]
    maps the status of [api_decompress_file] the same way.  (The call is
    made on the two encoded, NUL-terminated paths and the current files.) *)
Theorem bridge_result_is_status_zero
    (lib : bound_library) (input_path output_path : list N) (w : world) :
  let called (entry : native_fn) (holds : Z -> Prop) :=
    exists ci co,
      encode_utf8 input_path = Some ci /\ encode_utf8 output_path = Some co /\
      holds (fst (entry (c_char_p ci) (c_char_p co) (files w))) in
  (fst (compress lib input_path output_path w) = Ret true <->
     called (api_compress_file lib) (fun status => status = 0%Z)) /\
  (fst (compress lib input_path output_path w) = Ret false <->
     called (api_compress_file lib) (fun status => status <> 0%Z)) /\
  (fst (decompress lib input_path output_path w) = Ret true <->
     called (api_decompress_file lib) (fun status => status = 0%Z)) /\
  (fst (decompress lib input_path output_path w) = Ret false <->
     called (api_decompress_file lib) (fun status => status <> 0%Z)).
Proof.
  intros called; subst called; simpl.
  rewrite compress_run, decompress_run; simpl.
  destruct (encode_utf8 input_path) as [ci|];
    [destruct (encode_utf8 output_path) as [co|]|].
  - destruct (api_compress_file lib (c_char_p ci) (c_char_p co) (files w))
      as [sc fc] eqn:Hc.
    destruct (api_decompress_file lib (c_char_p ci) (c_char_p co) (files w))
      as [sd fd] eqn:Hd.
    simpl.
    repeat split.
    all: try (intros [= Hs]; exists ci, co; rewrite ?Hc, ?Hd; simpl;
              repeat split; lia).
    all: intros (ci' & co' & [= <-] & [= <-] & Hs);
         rewrite ?Hc, ?Hd in Hs; simpl in Hs; f_equal; lia.
  - simpl. repeat split; try discriminate.
    all: intros (ci' & co' & _ & Hco & _); discriminate.
  - simpl. repeat split; try discriminate.
    all: intros (ci' & co' & Hci & _); discriminate.
Qed.

(** C8: when either path holds a character UTF-8 cannot represent (a
    surrogate code point), [compress] and [decompress] raise
    [UnicodeEncodeError] without calling the native entry point and
    without touching the files; and whenever a foreign call is made at
    all, its two arguments are the complete UTF-8 encodings of the two
    paths, each ended by a NUL byte. *)
Theorem encoding_failure_precedes_foreign_call
    (lib : bound_library) (input_path output_path : list N) (w : world) :
  (List.existsb is_surrogate input_path = true \/
   List.existsb is_surrogate output_path = true ->
     fst (compress lib input_path output_path w) = Raise UnicodeEncodeError /\
     new_events w (compress lib input_path output_path w) = [] /\
     files (snd (compress lib input_path output_path w)) = files w /\
     fst (decompress lib input_path output_path w) = Raise UnicodeEncodeError /\
     new_events w (decompress lib input_path output_path w) = [] /\
     files (snd (decompress lib input_path output_path w)) = files w) /\
  (forall e,
     In e (new_events w (compress lib input_path output_path w)) \/
     In e (new_events w (decompress lib input_path output_path w)) ->
     exists ci co,
       encode_utf8 input_path = Some ci /\ encode_utf8 output_path = Some co /\
       call_args e = Some (ci ++ [x00], co ++ [x00])).
Proof.
  rewrite <- !encode_utf8_None.
  rewrite compress_run, decompress_run; simpl.
  destruct (encode_utf8 input_path) as [ci|];
    [destruct (encode_utf8 output_path) as [co|]|].
  - split; [intros [H|H]; discriminate|].
    destruct (api_compress_file lib (c_char_p ci) (c_char_p co) (files w)) as [sc fc].
    destruct (api_decompress_file lib (c_char_p ci) (c_char_p co) (files w)) as [sd fd].
    intros e. erewrite !new_events_app by reflexivity. simpl.
    intros [[<-|[]]|[<-|[]]]; exists ci, co; now repeat split.
  - split.
    + intros _. erewrite !new_events_app by (simpl; symmetry; apply app_nil_r).
      now repeat split.
    + intros e. erewrite !new_events_app by (simpl; symmetry; apply app_nil_r).
      simpl. tauto.
  - split.
    + intros _. erewrite !new_events_app by (simpl; symmetry; apply app_nil_r).
      now repeat split.
    + intros e. erewrite !new_events_app by (simpl; symmetry; apply app_nil_r).
      simpl. tauto.
Qed.

(** C9: [compress] and [decompress] are the same bridge operation (the
    operation of section 4.1: both paths encoded as NUL-terminated UTF-8,
    status [0] read as success and any other as failure) applied to
    [api_compress_file] and to [api_decompress_file]: same outcome, same
    files afterwards, same arguments across the boundary; the calls they
    make differ in the entry point alone. *)
Theorem compress_decompress_symmetric
    (lib : bound_library) (input_path output_path : list N) (w : world) :
  let rc := compress lib input_path output_path w in
  let rd := decompress lib input_path output_path w in
  (fst rc, files (snd rc), map call_args (new_events w rc)) =
    spec_bridge_operation (api_compress_file lib) input_path output_path (files w) /\
  (fst rd, files (snd rd), map call_args (new_events w rd)) =
    spec_bridge_operation (api_decompress_file lib) input_path output_path (files w) /\
  List.forallb (is_call "api_compress_file") (new_events w rc) = true /\
  List.forallb (is_call "api_decompress_file") (new_events w rd) = true.
Proof.
  simpl. rewrite compress_run, decompress_run. unfold spec_bridge_operation, c_char_p.
  simpl.
  destruct (encode_utf8 input_path) as [ci|];
    [destruct (encode_utf8 output_path) as [co|]|].
  - destruct (api_compress_file lib (ci ++ [x00]) (co ++ [x00]) (files w)) as [sc fc].
    destruct (api_decompress_file lib (ci ++ [x00]) (co ++ [x00]) (files w)) as [sd fd].
    erewrite !new_events_app by reflexivity. simpl.
    rewrite <- !status_eqb_match. now repeat split.
  - erewrite !new_events_app by (simpl; symmetry; apply app_nil_r). now repeat split.
  - erewrite !new_events_app by (simpl; symmetry; apply app_nil_r). now repeat split.
Qed.

(** ** The harness, stage by stage *)

Section Harness.

Context {os_path : OsPath}.
Variable E : env.

(** What the Verify stage does, in one equation. *)
Lemma verify_run (w : world) :
  verify E w =
  (Ret tt,
   {| files := files w;
      stdout := stdout w ++
        [lit "[Python] Verifying integrity of '" ++ restored_file E ++ lit "'...";
         report (verdict_on (input_file E) (restored_file E) (files w))];
      trace := trace w ++ [EvCmp (input_file E) (restored_file E)] |}).
Proof.
  unfold verify, verdict_on; py_run.
  destruct (files w !! input_file E) as [a|]; py_run.
  - destruct (files w !! restored_file E) as [b|]; py_run.
    + destruct (bytes_eqb a b); py_run; now rewrite <- app_assoc.
    + now rewrite <- app_assoc.
  - now rewrite <- app_assoc.
Qed.

(** The Cleanup stage never fails and leaves neither transient file. *)
Lemma cleanup_run (w : world) :
  exists w',
    cleanup E w = (Ret tt, w') /\
    files w' = delete (restored_file E) (delete (compressed_file E) (files w)) /\
    (exists evs, trace w' = trace w ++ evs /\
                 List.forallb (fun e => negb (is_foreign e || is_cmp e)) evs = true).
Proof.
  unfold cleanup; py_run.
  destruct (files w !! compressed_file E) as [c|] eqn:Hc; py_run; rewrite ?Hc; py_run.
  - destruct (delete (compressed_file E) (files w) !! restored_file E) as [r|] eqn:Hr;
      py_run; rewrite ?Hr; py_run.
    + eexists; split; [reflexivity|]; cbn [files trace]. split; [reflexivity|].
      eexists; split; [rewrite <- app_assoc; reflexivity | reflexivity].
    + eexists; split; [reflexivity|]; cbn [files trace]. split.
      * now rewrite (delete_id _ _ Hr).
      * eexists; split; reflexivity.
  - destruct (files w !! restored_file E) as [r|] eqn:Hr; py_run; rewrite ?Hr; py_run.
    + eexists; split; [reflexivity|]; cbn [files trace]. split.
      * now rewrite (delete_id _ _ Hc).
      * eexists; split; reflexivity.
    + eexists; split; [reflexivity|]; cbn [files trace]. split.
      * now rewrite (delete_id _ _ Hc), (delete_id _ _ Hr).
      * exists []. now rewrite app_nil_r.
Qed.

(** The run up to its first decision: without the fixture it stops. *)
Lemma run_demo_without_fixture (lib : bound_library) (w : world) :
  files w !! input_file E = None ->
  run_demo E lib w =
  (Ret tt,
   {| files := files w;
      stdout := stdout w ++
        [banner; lit "Error: 'test_files/sample.txt' not found.";
         lit "Please create it before running the demo."];
      trace := trace w |}).
Proof.
  intros H. unfold run_demo; py_run.
  rewrite H; py_run. now rewrite <- !app_assoc.
Qed.

(** With the fixture present the run goes on to Compress. *)
Lemma run_demo_with_fixture (lib : bound_library) (w : world) :
  files w !! input_file E <> None ->
  run_demo E lib w =
  (success_compress <- compress lib (input_file E) (compressed_file E) ;;
   if negb success_compress then
     print (lit "Demo failed during compression.") ;; pure tt
   else
     success_decompress <- decompress lib (compressed_file E) (restored_file E) ;;
     if negb success_decompress then
       print (lit "Demo failed during decompression.") ;; pure tt
     else verify E ;; cleanup E)
    (snd (print banner w)).
Proof.
  intros H. unfold run_demo, banner.
  cbv beta iota delta [bind print os_path_exists]; cbn [files stdout trace fst snd].
  destruct (files w !! input_file E); [reflexivity | congruence].
Qed.

End Harness.

Lemma bind_ret {A B} (m : M A) (k : A -> M B) (w w' : world) (a : A) :
  m w = (Ret a, w') -> bind m k w = k a w'.
Proof. unfold bind. now intros ->. Qed.

Lemma bind_raise {A B} (m : M A) (k : A -> M B) (w w' : world) (e : exn) :
  m w = (Raise e, w') -> bind m k w = (Raise e, w').
Proof. unfold bind. now intros ->. Qed.

(** A bridge operation returns a boolean or raises [UnicodeEncodeError];
    when it returns, it has made exactly one foreign call, to its own
    entry point. *)
Lemma compress_outcome (lib : bound_library) (i o : list N) (w : world) :
  (exists w', compress lib i o w = (Raise UnicodeEncodeError, w') /\ trace w' = trace w) \/
  (exists b w' ci co,
      compress lib i o w = (Ret b, w') /\
      trace w' = trace w ++ [EvForeign "api_compress_file" ci co]).
Proof.
  rewrite compress_run; cbv zeta.
  destruct (encode_utf8 i) as [ci|]; [destruct (encode_utf8 o) as [co|]|].
  - destruct (api_compress_file lib (c_char_p ci) (c_char_p co) (files w)) as [s fs'].
    right. do 4 eexists. split; reflexivity.
  - left. eexists. split; reflexivity.
  - left. eexists. split; reflexivity.
Qed.

Lemma decompress_outcome (lib : bound_library) (i o : list N) (w : world) :
  (exists w', decompress lib i o w = (Raise UnicodeEncodeError, w') /\ trace w' = trace w) \/
  (exists b w' ci co,
      decompress lib i o w = (Ret b, w') /\
      trace w' = trace w ++ [EvForeign "api_decompress_file" ci co]).
Proof.
  rewrite decompress_run; cbv zeta.
  destruct (encode_utf8 i) as [ci|]; [destruct (encode_utf8 o) as [co|]|].
  - destruct (api_decompress_file lib (c_char_p ci) (c_char_p co) (files w)) as [s fs'].
    right. do 4 eexists. split; reflexivity.
  - left. eexists. split; reflexivity.
  - left. eexists. split; reflexivity.
Qed.

Lemma report_injective (v1 v2 : verdict) : report v1 = report v2 -> v1 = v2.
Proof.
  destruct v1, v2; intros H; try reflexivity; vm_compute in H; discriminate.
Qed.

Section HarnessOutcome.

Context {os_path : OsPath}.
Variable E : env.

(** A run that gets past Compress and Decompress verifies, then cleans
    up: neither transient file is left. *)
Lemma run_demo_after_verify (lib : bound_library) (w w1 w2 : world) :
  files w !! input_file E <> None ->
  compress lib (input_file E) (compressed_file E) (snd (print banner w)) = (Ret true, w1) ->
  decompress lib (compressed_file E) (restored_file E) w1 = (Ret true, w2) ->
  exists w',
    run_demo E lib w = (Ret tt, w') /\
    files w' = delete (restored_file E) (delete (compressed_file E) (files w2)) /\
    files w' !! compressed_file E = None /\
    files w' !! restored_file E = None.
Proof.
  intros Hin Hc Hd. rewrite (run_demo_with_fixture E lib w Hin).
  rewrite (bind_ret _ _ _ _ _ Hc); cbn [negb].
  rewrite (bind_ret _ _ _ _ _ Hd); cbn [negb].
  rewrite (bind_ret _ _ _ _ _ (verify_run E w2)).
  destruct (cleanup_run E
    {| files := files w2;
       stdout := stdout w2 ++
         [lit "[Python] Verifying integrity of '" ++ restored_file E ++ lit "'...";
          report (verdict_on (input_file E) (restored_file E) (files w2))];
       trace := trace w2 ++ [EvCmp (input_file E) (restored_file E)] |})
    as (w' & Hrun & Hfiles & _).
  exists w'. split; [exact Hrun|]. cbn [files] in Hfiles. split; [exact Hfiles|].
  rewrite Hfiles. split.
  - apply lookup_delete_None. right. apply lookup_delete_eq.
  - apply lookup_delete_eq.
Qed.

(** A run returns normally or stops on a path that does not encode; no
    other exception leaves the harness. *)
Lemma run_demo_outcome (lib : bound_library) (w : world) :
  fst (run_demo E lib w) = Ret tt \/ fst (run_demo E lib w) = Raise UnicodeEncodeError.
Proof.
  destruct (files w !! input_file E) as [content|] eqn:Hin.
  2:{ left. now rewrite run_demo_without_fixture. }
  rewrite run_demo_with_fixture by congruence.
  destruct (compress_outcome lib (input_file E) (compressed_file E) (snd (print banner w)))
    as [(w1 & Hc & _) | (b & w1 & ci & co & Hc & _)].
  { right. now rewrite (bind_raise _ _ _ _ _ Hc). }
  rewrite (bind_ret _ _ _ _ _ Hc). destruct b; cbn [negb]; [|now left].
  destruct (decompress_outcome lib (compressed_file E) (restored_file E) w1)
    as [(w2 & Hd & _) | (b & w2 & di & do & Hd & _)].
  { right. now rewrite (bind_raise _ _ _ _ _ Hd). }
  rewrite (bind_ret _ _ _ _ _ Hd). destruct b; cbn [negb]; [|now left].
  rewrite (bind_ret _ _ _ _ _ (verify_run E w2)).
  match goal with
  | |- context [cleanup E ?w3] => destruct (cleanup_run E w3) as (w' & Hrun & _)
  end.
  left. now rewrite Hrun.
Qed.

End HarnessOutcome.

(** ** The harness's failure paths and its Verify stage *)

Section HarnessStages.

Context {os_path : OsPath}.
Variable E : env.

(** C5: when the fixture [sample.txt] does not exist, the run stops at
    the precondition check: it prints the banner and the two lines of
    the "not found" message, returns, and has made no foreign call -
    neither [api_compress_file] nor [api_decompress_file] - nor any
    other outward call, and the files are as they were. *)
Theorem missing_fixture_aborts_before_any_call (lib : bound_library) (w : world) :
  files w !! input_file E = None ->
  let r := run_demo E lib w in
  fst r = Ret tt /\
  stdout (snd r) =
    stdout w ++ [banner; lit "Error: 'test_files/sample.txt' not found.";
                 lit "Please create it before running the demo."] /\
  new_events w r = [] /\
  calls_to "api_compress_file" (new_events w r) = 0 /\
  calls_to "api_decompress_file" (new_events w r) = 0 /\
  files (snd r) = files w.
Proof.
  intros H r; subst r. rewrite (run_demo_without_fixture E lib w H).
  erewrite new_events_app by (cbn [trace]; symmetry; apply app_nil_r).
  now repeat split.
Qed.

(** C4: in a run whose fixture exists and whose [compress] call returns
    [False], the run stops at Compress: it prints "Demo failed during
    compression." and returns; the run has called [api_compress_file]
    once, has never called [api_decompress_file] and has compared no
    files. *)
Theorem compress_failure_aborts_at_compress (lib : bound_library) (w w1 : world) :
  files w !! input_file E <> None ->
  compress lib (input_file E) (compressed_file E) (snd (print banner w)) = (Ret false, w1) ->
  let r := run_demo E lib w in
  r = (Ret tt, snd (print (lit "Demo failed during compression.") w1)) /\
  calls_to "api_decompress_file" (new_events w r) = 0 /\
  comparisons (new_events w r) = 0 /\
  calls_to "api_compress_file" (new_events w r) = 1.
Proof.
  intros Hin Hc r; subst r. rewrite (run_demo_with_fixture E lib w Hin).
  rewrite (bind_ret _ _ _ _ _ Hc); cbn [negb]. py_run.
  split; [reflexivity|].
  destruct (compress_outcome lib (input_file E) (compressed_file E) (snd (print banner w)))
    as [(w' & Hc' & _) | (b & w' & ci & co & Hc' & Ht)].
  { rewrite Hc in Hc'. discriminate. }
  rewrite Hc in Hc'. injection Hc' as <- <-. cbn [print snd trace] in Ht.
  erewrite new_events_app by (cbn [trace]; exact Ht).
  now repeat split.
Qed.

(** C7: the Verify stage compares the fixture and the restored file by
    content and reports exactly one verdict [v]: "identical" exactly
    when both files exist with the same bytes, "different" exactly when
    both exist and their bytes differ, "not created" exactly when a file
    of the comparison is missing (the restored file above all).  The
    three reports are distinct lines, none of them is a line of the
    Compress or Decompress failure, the stage itself returns normally,
    and no [FileNotFoundError] ever leaves a run. *)
Theorem verify_reports_one_of_three (w : world) :
  exists v : verdict,
    verify E w =
      (Ret tt,
       {| files := files w;
          stdout := stdout w ++
            [lit "[Python] Verifying integrity of '" ++ restored_file E ++ lit "'...";
             report v];
          trace := trace w ++ [EvCmp (input_file E) (restored_file E)] |}) /\
    (v = Identical <->
       exists a, files w !! input_file E = Some a /\ files w !! restored_file E = Some a) /\
    (v = Different <->
       exists a b, files w !! input_file E = Some a /\
                   files w !! restored_file E = Some b /\ a <> b) /\
    (v = NotCreated <->
       files w !! restored_file E = None \/ files w !! input_file E = None) /\
    (forall v1 v2, report v1 = report v2 -> v1 = v2) /\
    (forall v', ~ In (report v')
       [lit "Demo failed during compression."; lit "Demo failed during decompression.";
        lit "[Python] C compression failed."; lit "[Python] C decompression failed."]) /\
    (forall lib w0, fst (run_demo E lib w0) <> Raise FileNotFoundError).
Proof.
  exists (verdict_on (input_file E) (restored_file E) (files w)).
  split; [apply verify_run|].
  split; [|split; [|split; [|split; [|split]]]].
  - unfold verdict_on.
    destruct (files w !! input_file E) as [a|];
      [destruct (files w !! restored_file E) as [b|]|].
    + destruct (bytes_eqb a b) eqn:Hab.
      * apply bytes_eqb_eq in Hab as ->. split; [eauto | reflexivity].
      * apply bytes_eqb_neq in Hab. split; [discriminate|].
        intros (a' & [= <-] & [= <-]). congruence.
    + split; [discriminate | intros (a' & _ & H); discriminate].
    + split; [discriminate | intros (a' & H & _); discriminate].
  - unfold verdict_on.
    destruct (files w !! input_file E) as [a|];
      [destruct (files w !! restored_file E) as [b|]|].
    + destruct (bytes_eqb a b) eqn:Hab.
      * apply bytes_eqb_eq in Hab as ->. split; [discriminate|].
        intros (a' & b' & [= <-] & [= <-] & Hne). congruence.
      * apply bytes_eqb_neq in Hab. split; [eauto | reflexivity].
    + split; [discriminate | intros (a' & b' & _ & H & _); discriminate].
    + split; [discriminate | intros (a' & b' & H & _); discriminate].
  - unfold verdict_on.
    destruct (files w !! input_file E) as [a|];
      [destruct (files w !! restored_file E) as [b|]|].
    + destruct (bytes_eqb a b); (split; [discriminate | intros [H|H]; discriminate]).
    + split; [now left | reflexivity].
    + split; [now right | reflexivity].
  - apply report_injective.
  - intros [] H; vm_compute in H; intuition discriminate.
  - intros lib w0 H. destruct (run_demo_outcome E lib w0) as [H'|H']; congruence.
Qed.

End HarnessStages.

(** ** Bridge initialisation and the script's entry guard *)

Section Initialisation.

Context {os_path : OsPath}.
Variable E : env.

(** What [import wrapper] does, in one equation. *)
Lemma import_wrapper_run (w : world) :
  import_wrapper E w =
  match files w !! lib_path E with
  | None =>
      (Raise (SystemExit 1),
       {| files := files w; stdout := stdout w ++ not_found_lines E; trace := trace w |})
  | Some _ =>
      let loading := trace w ++ [EvLoad (lib_path E)] in
      match dlopen E (lib_path E) (files w) with
      | inl msg =>
          (Raise (SystemExit 1),
           {| files := files w;
              stdout := stdout w ++
                [lit "Error loading C library: " ++ msg;
                 lit "This can happen if you are trying to run this on Windows *without* WSL."];
              trace := loading |})
      | inr lib =>
          let loaded := {| files := files w; stdout := stdout w; trace := loading |} in
          match dlsym lib "api_compress_file", dlsym lib "api_decompress_file" with
          | Some f, Some g =>
              (Ret {| api_compress_file := f; api_decompress_file := g |}, loaded)
          | _, _ => (Raise AttributeError, loaded)
          end
      end
  end.
Proof.
  unfold import_wrapper, not_found_lines; py_run.
  destruct (files w !! lib_path E) as [content|]; py_run.
  2:{ now rewrite <- app_assoc. }
  destruct (dlopen E (lib_path E) (files w)) as [msg|lib]; py_run.
  { now rewrite <- app_assoc. }
  destruct (dlsym lib "api_compress_file") as [f|]; py_run; [|reflexivity].
  destruct (dlsym lib "api_decompress_file") as [g|]; py_run; reflexivity.
Qed.

(** C6: when the resolved library path does not exist, [import wrapper]
    always ends the same way: it prints "Shared library not found at
    <path>" and the advice to build the library, and exits with status 1
    before the loader is tried and before any foreign call; no bound
    library comes out of it, and a script that imports the module ends
    there too, with nothing run afterwards. *)
Theorem missing_library_aborts_initialisation (w : world) :
  files w !! lib_path E = None ->
  let failed :=
    (Raise (SystemExit 1),
     {| files := files w; stdout := stdout w ++ not_found_lines E; trace := trace w |}) in
  import_wrapper E w = failed /\
  new_events w (import_wrapper E w) = [] /\
  List.existsb is_load (new_events w (import_wrapper E w)) = false /\
  List.existsb is_foreign (new_events w (import_wrapper E w)) = false /\
  (forall lib w', import_wrapper E w <> (Ret lib, w')) /\
  demo_main E w = (Raise (SystemExit 1), snd failed) /\
  new_events w (demo_main E w) = [].
Proof.
  intros H failed; subst failed. cbn [snd].
  assert (Hrun : import_wrapper E w =
    (Raise (SystemExit 1),
     {| files := files w; stdout := stdout w ++ not_found_lines E; trace := trace w |})).
  { rewrite import_wrapper_run, H. reflexivity. }
  assert (Hmain : demo_main E w =
    (Raise (SystemExit 1),
     {| files := files w; stdout := stdout w ++ not_found_lines E; trace := trace w |})).
  { unfold demo_main. now rewrite (bind_raise _ _ _ _ _ Hrun). }
  rewrite Hrun, Hmain.
  erewrite !new_events_app by (cbn [trace]; symmetry; apply app_nil_r).
  repeat split; discriminate.
Qed.

(** C10, as amended: the entry guard looks for [bin/libhuffman.so], a path
    that does not depend on the platform.  So when the bridge has initialised (the
    library the platform resolves exists and is loaded) on a platform
    that resolves [libhuffman.dll] or [libhuffman.dylib], and
    [bin/libhuffman.so] does not exist, the script prints that
    [bin/libhuffman.so] was not found and ends without running the
    harness: nothing but the load is in the trace and the banner is never
    printed. *)
Theorem entry_guard_checks_so_name_only (w w1 : world) (lib : bound_library) :
  lib_name (sys_platform E) = lit "libhuffman.dll" \/
  lib_name (sys_platform E) = lit "libhuffman.dylib" ->
  import_wrapper E w = (Ret lib, w1) ->
  files w !! guard_lib_path E = None ->
  guard_lib_path E =
    os_path_join (os_path_dirname (demo_file E)) [lit ".."; lit "bin"; lit "libhuffman.so"] /\
  lib_name (sys_platform E) <> lit "libhuffman.so" /\
  files w !! lib_path E <> None /\
  demo_main E w =
    (Ret tt,
     {| files := files w1; stdout := stdout w1 ++ guard_lines; trace := trace w1 |}) /\
  stdout (snd (demo_main E w)) = stdout w ++ guard_lines /\
  new_events w (demo_main E w) = [EvLoad (lib_path E)] /\
  List.existsb is_foreign (new_events w (demo_main E w)) = false.
Proof.
  intros Hplat Himport Hso.
  split; [reflexivity|].
  split. { destruct Hplat as [-> | ->]; vm_compute; discriminate. }
  pose proof (import_wrapper_run w) as Hrun. rewrite Himport in Hrun.
  destruct (files w !! lib_path E) as [content|] eqn:Hlib; [|discriminate].
  split; [discriminate|].
  cbv zeta in Hrun.
  destruct (dlopen E (lib_path E) (files w)) as [msg|so]; [discriminate|].
  destruct (dlsym so "api_compress_file") as [f|]; [|discriminate].
  destruct (dlsym so "api_decompress_file") as [g|]; [|discriminate].
  injection Hrun as -> ->.
  assert (Hmain : demo_main E w =
    (Ret tt,
     {| files := files w; stdout := stdout w ++ guard_lines;
        trace := trace w ++ [EvLoad (lib_path E)] |})).
  { unfold demo_main. rewrite (bind_ret _ _ _ _ _ Himport). py_run.
    rewrite Hso. py_run. unfold guard_lines. now rewrite <- app_assoc. }
  rewrite Hmain. cbn [files stdout trace snd].
  erewrite new_events_app by reflexivity.
  now repeat split.
Qed.

(** With [bin/libhuffman.so] present the guard lets the harness run,
    whatever the platform. *)
Lemma entry_guard_passes (w w1 : world) (lib : bound_library) :
  import_wrapper E w = (Ret lib, w1) ->
  files w !! guard_lib_path E <> None ->
  demo_main E w = run_demo E lib w1.
Proof.
  intros Himport Hso. unfold demo_main. rewrite (bind_ret _ _ _ _ _ Himport).
  pose proof (import_wrapper_run w) as Hrun. rewrite Himport in Hrun.
  assert (Hfiles : files w1 = files w).
  { destruct (files w !! lib_path E); [|discriminate]. cbv zeta in Hrun.
    destruct (dlopen E (lib_path E) (files w)) as [msg|so]; [discriminate|].
    destruct (dlsym so "api_compress_file"); [|discriminate].
    destruct (dlsym so "api_decompress_file"); [|discriminate].
    now injection Hrun as _ ->. }
  unfold bind at 1, os_path_exists at 1. rewrite Hfiles.
  destruct (files w !! guard_lib_path E); [reflexivity | congruence].
Qed.

End Initialisation.

(** C2, as amended: a platform identifier that matches none of the three
    families is no error.  The name resolves to the default
    [libhuffman.so], exactly as on Linux, and initialisation goes on with
    it: when that file exists, loads and exports both entry points,
    [import wrapper] returns the bound library.  For every identifier the
    name is one of the three: [libhuffman.dll] after the prefix [win],
    else [libhuffman.dylib] after the prefix [darwin], else
    [libhuffman.so]. *)
Theorem unrecognised_platform_defaults_to_so `{OsPath}
    (E : env) (w : world) (content : list byte) (lib : cdll) (f g : native_fn) :
  spec_platform_family (sys_platform E) = None ->
  files w !! lib_path E = Some content ->
  dlopen E (lib_path E) (files w) = inr lib ->
  dlsym lib "api_compress_file" = Some f ->
  dlsym lib "api_decompress_file" = Some g ->
  lib_name (sys_platform E) = lit "libhuffman.so" /\
  import_wrapper E w =
    (Ret {| api_compress_file := f; api_decompress_file := g |},
     {| files := files w; stdout := stdout w;
        trace := trace w ++ [EvLoad (lib_path E)] |}) /\
  (forall platform,
     lib_name platform =
       if startswith platform (lit "win") then lit "libhuffman.dll"
       else if startswith platform (lit "darwin") then lit "libhuffman.dylib"
       else lit "libhuffman.so") /\
  (forall platform,
     In (lib_name platform)
        [lit "libhuffman.so"; lit "libhuffman.dll"; lit "libhuffman.dylib"]).
Proof.
  intros Hfam Hfile Hopen Hf Hg.
  split.
  { unfold spec_platform_family in Hfam. unfold lib_name.
    destruct (startswith (sys_platform E) (lit "linux")); [discriminate|].
    destruct (startswith (sys_platform E) (lit "win")); [discriminate|].
    destruct (startswith (sys_platform E) (lit "darwin")); [discriminate|].
    reflexivity. }
  split.
  { rewrite import_wrapper_run, Hfile. cbv zeta. now rewrite Hopen, Hf, Hg. }
  split.
  { reflexivity. }
  intros platform. unfold lib_name.
  destruct (startswith platform (lit "win")); [right; left; reflexivity|].
  destruct (startswith platform (lit "darwin")); [right; right; left; reflexivity|].
  left; reflexivity.
Qed.

(** ** Concrete runs *)

Section Runs.

Import Fixture.
Local Existing Instance posixpath.os_path.

(** C2, the claim as stated fails: [freebsd13] matches none of the three
    families, yet the name resolves to [libhuffman.so] and
    [import wrapper] succeeds, with nothing printed and no exit. *)
Lemma freebsd_resolves_without_error :
  spec_platform_family (lit "freebsd13") = None /\
  lib_name (lit "freebsd13") = lit "libhuffman.so" /\
  lib_path (install "freebsd13" healthy_library) = lit "/repo/python/../bin/libhuffman.so" /\
  fst (import_wrapper (install "freebsd13" healthy_library)
         (fresh (checkout "libhuffman.so"))) = Ret healthy_library /\
  stdout (snd (import_wrapper (install "freebsd13" healthy_library)
                 (fresh (checkout "libhuffman.so")))) = [].
Proof. repeat split; vm_compute; reflexivity. Qed.

Lemma unrecognised_platform_defaults_to_so_witness :
  spec_platform_family (sys_platform (install "freebsd13" healthy_library)) = None /\
  lib_name (sys_platform (install "freebsd13" healthy_library)) = lit "libhuffman.so" /\
  fst (import_wrapper (install "freebsd13" healthy_library)
         (fresh (checkout "libhuffman.so"))) = Ret healthy_library.
Proof.
  split; [vm_compute; reflexivity|].
  pose proof (unrecognised_platform_defaults_to_so
                (install "freebsd13" healthy_library)
                (fresh (checkout "libhuffman.so")) []
                (fake_cdll (copying_entry 0) (copying_entry 0))
                (copying_entry 0) (copying_entry 0)) as T.
  destruct T as (Hname & Himport & _).
  - vm_compute; reflexivity.
  - vm_compute; reflexivity.
  - reflexivity.
  - reflexivity.
  - reflexivity.
  - split; [exact Hname|]. rewrite Himport. reflexivity.
Defined.

(** C1, the failing runs.  With the fixture present and no transient
    file beforehand: (a) compression succeeds and writes
    [sample_py.huff], decompression reports status 1; the run prints
    "Demo failed during decompression." and returns with
    [sample_py.huff] still there, no removal attempted; (b) compression
    writes part of [sample_py.huff] and reports status 2; the run prints
    "Demo failed during compression." and returns with the partial file
    still there.  The run that reaches Verify removes both files. *)
Theorem failed_run_leaves_compressed_file :
  let w := fresh (checkout "libhuffman.so") in
  let huff := lit "/repo/python/../test_files/sample_py.huff" in
  let restored := lit "/repo/python/../test_files/restored_py.txt" in
  let after lib := snd (run_demo (install "linux" lib) lib w) in
  compressed_file (install "linux" healthy_library) = huff /\
  restored_file (install "linux" healthy_library) = restored /\
  files w !! huff = None /\ files w !! restored = None /\
  (fst (run_demo (install "linux" decompress_fails) decompress_fails w) = Ret tt /\
   files (after decompress_fails) !! huff = Some sample /\
   last (stdout (after decompress_fails)) = Some (lit "Demo failed during decompression.") /\
   List.existsb (fun e => match e with EvRemove _ => true | _ => false end)
     (trace (after decompress_fails)) = false) /\
  (fst (run_demo (install "linux" compress_fails) compress_fails w) = Ret tt /\
   files (after compress_fails) !! huff = Some ["a"]%byte /\
   last (stdout (after compress_fails)) = Some (lit "Demo failed during compression.") /\
   List.existsb (fun e => match e with EvRemove _ => true | _ => false end)
     (trace (after compress_fails)) = false) /\
  (fst (run_demo (install "linux" healthy_library) healthy_library w) = Ret tt /\
   files (after healthy_library) !! huff = None /\
   files (after healthy_library) !! restored = None /\
   In msg_identical (stdout (after healthy_library))).
Proof.
  cbv zeta. repeat split; try (vm_compute; reflexivity).
  vm_compute. tauto.
Qed.

Lemma missing_fixture_aborts_before_any_call_witness :
  files (fresh no_fixture) !! input_file (install "linux" healthy_library) = None /\
  fst (run_demo (install "linux" healthy_library) healthy_library (fresh no_fixture)) = Ret tt /\
  new_events (fresh no_fixture)
    (run_demo (install "linux" healthy_library) healthy_library (fresh no_fixture)) = [].
Proof.
  assert (H : files (fresh no_fixture) !! input_file (install "linux" healthy_library) = None)
    by (vm_compute; reflexivity).
  split; [exact H|].
  destruct (missing_fixture_aborts_before_any_call
              (install "linux" healthy_library) healthy_library (fresh no_fixture) H)
    as (Hret & _ & Hnew & _).
  split; [exact Hret | exact Hnew].
Defined.

Lemma compress_failure_aborts_at_compress_witness :
  exists w1,
    files (fresh (checkout "libhuffman.so")) !! input_file (install "linux" compress_fails)
      <> None /\
    compress compress_fails (input_file (install "linux" compress_fails))
      (compressed_file (install "linux" compress_fails))
      (snd (print banner (fresh (checkout "libhuffman.so")))) = (Ret false, w1) /\
    calls_to "api_decompress_file"
      (new_events (fresh (checkout "libhuffman.so"))
         (run_demo (install "linux" compress_fails) compress_fails
            (fresh (checkout "libhuffman.so")))) = 0 /\
    comparisons
      (new_events (fresh (checkout "libhuffman.so"))
         (run_demo (install "linux" compress_fails) compress_fails
            (fresh (checkout "libhuffman.so")))) = 0.
Proof.
  exists (snd (compress compress_fails (input_file (install "linux" compress_fails))
                 (compressed_file (install "linux" compress_fails))
                 (snd (print banner (fresh (checkout "libhuffman.so")))))).
  assert (H1 : files (fresh (checkout "libhuffman.so")) !!
                 input_file (install "linux" compress_fails) <> None)
    by (vm_compute; discriminate).
  assert (H2 : compress compress_fails (input_file (install "linux" compress_fails))
                 (compressed_file (install "linux" compress_fails))
                 (snd (print banner (fresh (checkout "libhuffman.so")))) =
               (Ret false,
                snd (compress compress_fails (input_file (install "linux" compress_fails))
                       (compressed_file (install "linux" compress_fails))
                       (snd (print banner (fresh (checkout "libhuffman.so")))))))
    by (vm_compute; reflexivity).
  split; [exact H1|]. split; [exact H2|].
  destruct (compress_failure_aborts_at_compress
              (install "linux" compress_fails) compress_fails
              (fresh (checkout "libhuffman.so")) _ H1 H2)
    as (_ & Hd & Hc & _).
  split; [exact Hd | exact Hc].
Defined.

Lemma missing_library_aborts_initialisation_witness :
  files (fresh ∅) !! lib_path (install "linux" healthy_library) = None /\
  fst (import_wrapper (install "linux" healthy_library) (fresh ∅)) = Raise (SystemExit 1) /\
  new_events (fresh ∅) (import_wrapper (install "linux" healthy_library) (fresh ∅)) = [].
Proof.
  assert (H : files (fresh ∅) !! lib_path (install "linux" healthy_library) = None)
    by (vm_compute; reflexivity).
  split; [exact H|].
  destruct (missing_library_aborts_initialisation
              (install "linux" healthy_library) (fresh ∅) H)
    as (Hrun & Hnew & _).
  split; [now rewrite Hrun | exact Hnew].
Defined.

Lemma entry_guard_checks_so_name_only_witness :
  lib_name (sys_platform (install "darwin" healthy_library)) = lit "libhuffman.dylib" /\
  fst (import_wrapper (install "darwin" healthy_library)
         (fresh (checkout "libhuffman.dylib"))) = Ret healthy_library /\
  files (fresh (checkout "libhuffman.dylib")) !!
    guard_lib_path (install "darwin" healthy_library) = None /\
  demo_main (install "darwin" healthy_library) (fresh (checkout "libhuffman.dylib")) =
    (Ret tt,
     {| files := checkout "libhuffman.dylib"; stdout := guard_lines;
        trace := [EvLoad (lit "/repo/python/../bin/libhuffman.dylib")] |}).
Proof.
  assert (H1 : lib_name (sys_platform (install "darwin" healthy_library)) =
               lit "libhuffman.dylib") by (vm_compute; reflexivity).
  assert (H2 : import_wrapper (install "darwin" healthy_library)
                 (fresh (checkout "libhuffman.dylib")) =
               (Ret healthy_library,
                {| files := checkout "libhuffman.dylib"; stdout := [];
                   trace := [EvLoad (lit "/repo/python/../bin/libhuffman.dylib")] |}))
    by (vm_compute; reflexivity).
  assert (H3 : files (fresh (checkout "libhuffman.dylib")) !!
                 guard_lib_path (install "darwin" healthy_library) = None)
    by (vm_compute; reflexivity).
  split; [exact H1|]. split; [now rewrite H2|]. split; [exact H3|].
  destruct (entry_guard_checks_so_name_only
              (install "darwin" healthy_library) (fresh (checkout "libhuffman.dylib"))
              _ healthy_library (or_intror H1) H2 H3)
    as (_ & _ & _ & Hmain & _).
  exact Hmain.
Defined.

Lemma encoding_failure_precedes_foreign_call_witness :
  List.existsb is_surrogate surrogate_path = true /\
  fst (compress healthy_library surrogate_path (lit "/tmp/out")
         (fresh (checkout "libhuffman.so"))) = Raise UnicodeEncodeError /\
  new_events (fresh (checkout "libhuffman.so"))
    (compress healthy_library surrogate_path (lit "/tmp/out")
       (fresh (checkout "libhuffman.so"))) = [] /\
  fst (decompress healthy_library surrogate_path (lit "/tmp/out")
         (fresh (checkout "libhuffman.so"))) = Raise UnicodeEncodeError /\
  new_events (fresh (checkout "libhuffman.so"))
    (decompress healthy_library surrogate_path (lit "/tmp/out")
       (fresh (checkout "libhuffman.so"))) = [].
Proof.
  assert (H : List.existsb is_surrogate surrogate_path = true)
    by (vm_compute; reflexivity).
  split; [exact H|].
  destruct (encoding_failure_precedes_foreign_call healthy_library surrogate_path
              (lit "/tmp/out") (fresh (checkout "libhuffman.so")))
    as (Hfail & _).
  destruct (Hfail (or_introl H)) as (Hc & Hcn & _ & Hd & Hdn & _).
  repeat split; assumption.
Defined.

End Runs.


(** * Further properties of the two modules *)

(** ** Initialisation: every way [import wrapper] can end *)

Section InitialisationOutcomes.

Context {os_path : OsPath}.
Variable E : env.

(** X1: when the library file exists but the loader rejects it,
    [import wrapper] prints "Error loading C library: <message>" and the
    WSL hint, and exits with status 1; the one outward call is the load,
    no entry point is bound or called, and the files are untouched. *)
Theorem loader_rejection_exits (w : world) (content : list byte) (msg : list N) :
  files w !! lib_path E = Some content ->
  dlopen E (lib_path E) (files w) = inl msg ->
  import_wrapper E w =
    (Raise (SystemExit 1),
     {| files := files w;
        stdout := stdout w ++
          [lit "Error loading C library: " ++ msg;
           lit "This can happen if you are trying to run this on Windows *without* WSL."];
        trace := trace w ++ [EvLoad (lib_path E)] |}) /\
  new_events w (import_wrapper E w) = [EvLoad (lib_path E)] /\
  demo_main E w = (Raise (SystemExit 1), snd (import_wrapper E w)).
Proof.
  intros Hfile Hopen.
  assert (Hrun : import_wrapper E w =
    (Raise (SystemExit 1),
     {| files := files w;
        stdout := stdout w ++
          [lit "Error loading C library: " ++ msg;
           lit "This can happen if you are trying to run this on Windows *without* WSL."];
        trace := trace w ++ [EvLoad (lib_path E)] |})).
  { rewrite import_wrapper_run, Hfile. cbv zeta. now rewrite Hopen. }
  split; [exact Hrun|]. split.
  - rewrite Hrun. now apply new_events_app.
  - unfold demo_main. rewrite (bind_raise _ _ _ _ _ Hrun). now rewrite Hrun.
Qed.

(** X2: when the library loads but does not export one of the two entry
    points, declaring the prototypes raises [AttributeError]: the import
    fails with that exception (not with an exit status), nothing is
    printed, and no entry point has been called. *)
Theorem missing_symbol_raises_attribute_error
    (w : world) (content : list byte) (lib : cdll) :
  files w !! lib_path E = Some content ->
  dlopen E (lib_path E) (files w) = inr lib ->
  dlsym lib "api_compress_file" = None \/ dlsym lib "api_decompress_file" = None ->
  import_wrapper E w =
    (Raise AttributeError,
     {| files := files w; stdout := stdout w;
        trace := trace w ++ [EvLoad (lib_path E)] |}) /\
  demo_main E w = (Raise AttributeError, snd (import_wrapper E w)).
Proof.
  intros Hfile Hopen Hsym.
  assert (Hrun : import_wrapper E w =
    (Raise AttributeError,
     {| files := files w; stdout := stdout w;
        trace := trace w ++ [EvLoad (lib_path E)] |})).
  { rewrite import_wrapper_run, Hfile. cbv zeta. rewrite Hopen.
    destruct Hsym as [-> | ->]; [reflexivity|].
    now destruct (dlsym lib "api_compress_file"). }
  split; [exact Hrun|].
  unfold demo_main. rewrite (bind_raise _ _ _ _ _ Hrun). now rewrite Hrun.
Qed.

(** X3: whatever happens, [import wrapper] calls no native entry point,
    tries at most one load and leaves the files as they were; it ends in
    one of three ways: a bound library, exit status 1, or
    [AttributeError].  It returns a bound library exactly when the
    resolved file exists, the loader accepts it and both entry points are
    exported, and then it has printed nothing. *)
Theorem import_wrapper_outcomes (w : world) :
  let r := import_wrapper E w in
  files (snd r) = files w /\
  List.existsb is_foreign (new_events w r) = false /\
  (new_events w r = [] \/ new_events w r = [EvLoad (lib_path E)]) /\
  ((exists lib, fst r = Ret lib) \/ fst r = Raise (SystemExit 1) \/
   fst r = Raise AttributeError) /\
  (forall bound,
     fst r = Ret bound <->
     exists content lib,
       files w !! lib_path E = Some content /\
       dlopen E (lib_path E) (files w) = inr lib /\
       dlsym lib "api_compress_file" = Some (api_compress_file bound) /\
       dlsym lib "api_decompress_file" = Some (api_decompress_file bound)) /\
  (forall bound, fst r = Ret bound -> stdout (snd r) = stdout w).
Proof.
  intros r; subst r. rewrite import_wrapper_run.
  destruct (files w !! lib_path E) as [content|] eqn:Hfile.
  2:{ erewrite new_events_app by (cbn [trace]; symmetry; apply app_nil_r).
      cbn [fst snd files stdout]. repeat split; try discriminate; try tauto.
      intros (c & l & H & _); discriminate. }
  cbv zeta. destruct (dlopen E (lib_path E) (files w)) as [msg|lib] eqn:Hopen.
  { erewrite new_events_app by reflexivity.
    cbn [fst snd files stdout]. repeat split; try discriminate; try tauto.
    intros (c & l & _ & H & _); discriminate. }
  destruct (dlsym lib "api_compress_file") as [f|] eqn:Hf.
  2:{ erewrite new_events_app by reflexivity.
      cbn [fst snd files stdout]. repeat split; try discriminate; try tauto.
      intros (c & l & _ & [= <-] & H & _). congruence. }
  destruct (dlsym lib "api_decompress_file") as [g|] eqn:Hg.
  2:{ erewrite new_events_app by reflexivity.
      cbn [fst snd files stdout]. repeat split; try discriminate; try tauto.
      intros (c & l & _ & [= <-] & _ & H). congruence. }
  erewrite new_events_app by reflexivity.
  cbn [fst snd files stdout]. repeat split; try tauto; eauto.
  - intros [= <-]. exists content, lib. now repeat split.
  - intros (c & l & _ & [= <-] & Hf' & Hg').
    destruct bound as [f' g']; cbn in Hf', Hg'. congruence.
Qed.

(** X4: run as a script, [wrapper.py] prints its notice exactly when the
    module body succeeds, as the only line of the run; when the body
    fails the script ends as the body did, with nothing added.  In no case
    does it call a native entry point or change a file. *)
Theorem wrapper_script_only_prints_notice (w : world) :
  let r := wrapper_main E w in
  files (snd r) = files w /\
  List.existsb is_foreign (new_events w r) = false /\
  (fst r = Ret tt <-> exists bound, fst (import_wrapper E w) = Ret bound) /\
  (fst r = Ret tt ->
   stdout (snd r) =
     stdout w ++ [lit "This is a wrapper module. Run demo.py to see it in action."]) /\
  (forall e, fst r = Raise e -> r = (Raise e, snd (import_wrapper E w))).
Proof.
  intros r; subst r. unfold wrapper_main.
  pose proof (import_wrapper_run E w) as Hrun.
  destruct (files w !! lib_path E) as [content|];
    [cbv zeta in Hrun;
     destruct (dlopen E (lib_path E) (files w)) as [msg|lib];
     [|destruct (dlsym lib "api_compress_file") as [f|];
       [destruct (dlsym lib "api_decompress_file") as [g|]|]]|].
  2:{ rewrite (bind_ret _ _ _ _ _ Hrun), Hrun. py_run.
      erewrite new_events_app by reflexivity.
      repeat split; eauto; discriminate. }
  all: rewrite (bind_raise _ _ _ _ _ Hrun), Hrun; cbn [fst snd files].
  all: try erewrite new_events_app by reflexivity.
  all: try erewrite new_events_app by (cbn [trace]; symmetry; apply app_nil_r).
  all: repeat split; try discriminate; try (intros (b & H); discriminate).
  all: intros e' [= <-]; reflexivity.
Qed.

End InitialisationOutcomes.

(** ** The harness: the other paths of a run *)

Section HarnessPaths.

Context {os_path : OsPath}.
Variable E : env.

(** What the Cleanup stage does, in one equation. *)
Lemma cleanup_exact (w : world) :
  cleanup E w =
  (Ret tt,
   {| files := delete (restored_file E) (delete (compressed_file E) (files w));
      stdout := stdout w ++ [lit "[Python] Cleaning up demo files..."];
      trace := trace w ++ cleanup_removals E (files w) |}).
Proof.
  unfold cleanup, cleanup_removals; py_run.
  destruct (files w !! compressed_file E) as [c|] eqn:Hc; py_run; rewrite ?Hc; py_run.
  - destruct (delete (compressed_file E) (files w) !! restored_file E) as [r|] eqn:Hr;
      py_run; rewrite ?Hr; py_run.
    + now rewrite <- app_assoc.
    + now rewrite (delete_id _ _ Hr).
  - rewrite (delete_id _ _ Hc).
    destruct (files w !! restored_file E) as [r|] eqn:Hr; py_run; rewrite ?Hr; py_run.
    + reflexivity.
    + now rewrite (delete_id _ _ Hr), app_nil_r.
Qed.

(** X5: the Cleanup stage calls [os.remove] only on a transient file
    that exists and touches no other path; whenever it returns, neither
    transient file exists afterwards and a second cleanup finds nothing to
    remove. *)
Theorem cleanup_removes_only_transients (w : world) :
  let r := cleanup E w in
  (forall e, In e (new_events w r) ->
             exists p, e = EvRemove p /\
                       (p = compressed_file E \/ p = restored_file E) /\
                       files w !! p <> None) /\
  (forall p, p <> compressed_file E -> p <> restored_file E ->
             files (snd r) !! p = files w !! p) /\
  (fst r = Ret tt ->
   files (snd r) !! compressed_file E = None /\
   files (snd r) !! restored_file E = None /\
   files (snd (cleanup E (snd r))) = files (snd r) /\
   new_events (snd r) (cleanup E (snd r)) = []).
Proof.
  intros r; subst r. rewrite !cleanup_exact. cbn [fst snd files].
  erewrite !new_events_app by reflexivity.
  assert (Hc : delete (restored_file E) (delete (compressed_file E) (files w))
                 !! compressed_file E = None).
  { apply lookup_delete_None. right. apply lookup_delete_eq. }
  assert (Hr : delete (restored_file E) (delete (compressed_file E) (files w))
                 !! restored_file E = None) by apply lookup_delete_eq.
  split; [|split].
  - intros e He. unfold cleanup_removals in He. apply in_app_or in He.
    destruct He as [He|He].
    + destruct (files w !! compressed_file E) as [c|] eqn:Hw; [|destruct He].
      destruct He as [<-|[]]. exists (compressed_file E).
      repeat split; [now left | congruence].
    + destruct (delete (compressed_file E) (files w) !! restored_file E) as [c|] eqn:Hw;
        [|destruct He].
      destruct He as [<-|[]]. exists (restored_file E).
      repeat split; [now right|].
      apply lookup_delete_Some in Hw as [_ Hw]. congruence.
  - intros p Hpc Hpr. now rewrite !lookup_delete_ne by congruence.
  - intros _. split; [exact Hc|]. split; [exact Hr|]. split.
    + rewrite (delete_id _ _ Hc). now rewrite delete_id.
    + unfold cleanup_removals. rewrite Hc. rewrite (delete_id _ _ Hc), Hr. reflexivity.
Qed.

(** X6: in a run whose fixture exists, whose [compress] call returns
    [True] and whose [decompress] call returns [False], the run stops at
    Decompress: it prints "Demo failed during decompression." and
    returns, each entry point has been called once, no files were
    compared, nothing was removed, and the files are as the failed call
    left them. *)
Theorem decompress_failure_aborts_at_decompress (lib : bound_library) (w w1 w2 : world) :
  files w !! input_file E <> None ->
  compress lib (input_file E) (compressed_file E) (snd (print banner w)) = (Ret true, w1) ->
  decompress lib (compressed_file E) (restored_file E) w1 = (Ret false, w2) ->
  let r := run_demo E lib w in
  r = (Ret tt, snd (print (lit "Demo failed during decompression.") w2)) /\
  calls_to "api_compress_file" (new_events w r) = 1 /\
  calls_to "api_decompress_file" (new_events w r) = 1 /\
  comparisons (new_events w r) = 0 /\
  List.existsb (fun e => match e with EvRemove _ => true | _ => false end)
    (new_events w r) = false /\
  files (snd r) = files w2.
Proof.
  intros Hin Hc Hd r; subst r. rewrite (run_demo_with_fixture E lib w Hin).
  rewrite (bind_ret _ _ _ _ _ Hc); cbn [negb].
  rewrite (bind_ret _ _ _ _ _ Hd); cbn [negb]. py_run.
  split; [reflexivity|].
  destruct (compress_outcome lib (input_file E) (compressed_file E) (snd (print banner w)))
    as [(w' & Hc' & _) | (b & w' & ci & co & Hc' & Ht)];
    rewrite Hc in Hc'; [discriminate|].
  injection Hc' as <- <-. cbn [print snd trace] in Ht.
  destruct (decompress_outcome lib (compressed_file E) (restored_file E) w1)
    as [(w' & Hd' & _) | (b & w' & di & do & Hd' & Ht')];
    rewrite Hd in Hd'; [discriminate|].
  injection Hd' as <- <-. rewrite Ht, <- app_assoc in Ht'.
  erewrite new_events_app by (cbn [trace]; exact Ht').
  now repeat split.
Qed.


End HarnessPaths.

(** ** The order of a run's outward calls *)

Section HarnessOrder.

Context {os_path : OsPath}.
Variable E : env.

(** X8: the outward calls of any run, in order, are a prefix of: one call
    of [api_compress_file] on the fixture and the compressed path, one call
    of [api_decompress_file] whose input is the very path [compress] was
    given as output, one comparison of the fixture with the restored file,
    then removals of transient files only.  Nothing is ever called twice
    and no later stage runs without the earlier ones. *)
Theorem harness_call_sequence (lib : bound_library) (w : world) :
  let evs := new_events w (run_demo E lib w) in
  evs = [] \/
  exists ci co,
    encode_utf8 (input_file E) = Some ci /\
    encode_utf8 (compressed_file E) = Some co /\
    (evs = [EvForeign "api_compress_file" (ci ++ [x00]) (co ++ [x00])] \/
     exists ro,
       encode_utf8 (restored_file E) = Some ro /\
       (evs = [EvForeign "api_compress_file" (ci ++ [x00]) (co ++ [x00]);
               EvForeign "api_decompress_file" (co ++ [x00]) (ro ++ [x00])] \/
        exists removals,
          evs = [EvForeign "api_compress_file" (ci ++ [x00]) (co ++ [x00]);
                 EvForeign "api_decompress_file" (co ++ [x00]) (ro ++ [x00]);
                 EvCmp (input_file E) (restored_file E)] ++ removals /\
          Forall (fun e => e = EvRemove (compressed_file E) \/
                           e = EvRemove (restored_file E)) removals)).
Proof.
  cbv zeta. remember (new_events w (run_demo E lib w)) as evs eqn:Hevs. revert Hevs.
  destruct (files w !! input_file E) as [content|] eqn:Hin.
  2:{ rewrite run_demo_without_fixture by exact Hin. intros ->. left.
      apply new_events_app. cbn [trace]. now rewrite app_nil_r. }
  rewrite run_demo_with_fixture by congruence.
  unfold bind at 1. rewrite compress_run. cbv zeta.
  destruct (encode_utf8 (input_file E)) as [ci|].
  2:{ intros ->. left. apply new_events_app. cbn [print snd trace]. now rewrite app_nil_r. }
  destruct (encode_utf8 (compressed_file E)) as [co|] eqn:Hco.
  2:{ intros ->. left. apply new_events_app. cbn [print snd trace]. now rewrite app_nil_r. }
  unfold c_char_p.
  destruct (api_compress_file lib (ci ++ [x00]) (co ++ [x00]) (files (snd (print banner w))))
    as [sc fc].
  destruct (sc =? 0)%Z; cbn [negb].
  2:{ py_run. intros ->. right. exists ci, co. split; [reflexivity|]. split; [reflexivity|].
      left. now apply new_events_app. }
  unfold bind at 1. rewrite decompress_run. cbv zeta. rewrite Hco.
  destruct (encode_utf8 (restored_file E)) as [ro|].
  2:{ intros ->. right. exists ci, co. split; [reflexivity|]. split; [reflexivity|].
      left. now apply new_events_app. }
  unfold c_char_p. cbn [files print snd trace stdout].
  destruct (api_decompress_file lib (co ++ [x00]) (ro ++ [x00]) fc) as [sd fd].
  destruct (sd =? 0)%Z; cbn [negb].
  2:{ py_run. intros ->. right. exists ci, co. split; [reflexivity|]. split; [reflexivity|].
      right. exists ro. split; [reflexivity|]. left.
      apply new_events_app. cbn [trace]. now rewrite <- app_assoc. }
  erewrite bind_ret by apply verify_run. rewrite cleanup_exact.
  intros ->. right. exists ci, co. split; [reflexivity|]. split; [reflexivity|].
  right. exists ro. split; [reflexivity|]. right.
  exists (cleanup_removals E fd). split.
  - apply new_events_app. cbn [trace files]. now rewrite <- !app_assoc.
  - unfold cleanup_removals. apply Forall_app. split.
    + destruct (fd !! compressed_file E); [|constructor].
      constructor; [now left | constructor].
    + destruct (delete (compressed_file E) fd !! restored_file E); [|constructor].
      constructor; [now right | constructor].
Qed.

(** X9: when both modules live in one directory and the platform
    resolves [libhuffman.so], the path the entry guard checks is the path
    the bridge loaded, so after a successful import the guard never
    fires: the script always goes on to run the harness. *)
Theorem entry_guard_never_fires_for_so (w w1 : world) (lib : bound_library) :
  os_path_dirname (wrapper_file E) = os_path_dirname (demo_file E) ->
  lib_name (sys_platform E) = lit "libhuffman.so" ->
  import_wrapper E w = (Ret lib, w1) ->
  guard_lib_path E = lib_path E /\
  files w !! guard_lib_path E <> None /\
  demo_main E w = run_demo E lib w1.
Proof.
  intros Hdir Hname Himport.
  assert (Hpath : guard_lib_path E = lib_path E).
  { unfold guard_lib_path, lib_path. now rewrite Hdir, Hname. }
  assert (Hthere : files w !! guard_lib_path E <> None).
  { rewrite Hpath. pose proof (import_wrapper_run E w) as Hrun.
    rewrite Himport in Hrun. destruct (files w !! lib_path E); [discriminate|].
    discriminate. }
  split; [exact Hpath|]. split; [exact Hthere|].
  now apply entry_guard_passes.
Qed.

(** X10: the script [demo.py] exits with a status only through the import
    of [wrapper]: whenever it ends with [SystemExit] the status is 1, and
    whenever it ends with [SystemExit] or [AttributeError] it ended as the
    import did, before the guard and the harness: no native entry point was
    called and the files are unchanged. *)
Theorem demo_script_exits_only_from_import (w : world) (e : exn) :
  fst (demo_main E w) = Raise e ->
  (exists code, e = SystemExit code) \/ e = AttributeError ->
  (forall code, e = SystemExit code -> code = 1%Z) /\
  demo_main E w = (Raise e, snd (import_wrapper E w)) /\
  fst (import_wrapper E w) = Raise e /\
  files (snd (demo_main E w)) = files w /\
  List.existsb is_foreign (new_events w (demo_main E w)) = false.
Proof.
  intros Hend Hkind. revert Hend. unfold demo_main.
  destruct (import_wrapper E w) as [[lib|e'] w1] eqn:Himport.
  - rewrite (bind_ret _ _ _ _ _ Himport). py_run.
    destruct (files w1 !! guard_lib_path E); py_run.
    + intros Hend. exfalso.
      destruct (run_demo_outcome E lib w1) as [H|H]; rewrite H in Hend;
        [discriminate|].
      injection Hend as <-. destruct Hkind as [(code & Hk)|Hk]; discriminate.
    + discriminate.
  - rewrite (bind_raise _ _ _ _ _ Himport). cbn [fst snd]. intros [= ->].
    pose proof (import_wrapper_run E w) as Hrun. rewrite Himport in Hrun.
    destruct (files w !! lib_path E).
    2:{ injection Hrun as -> ->. cbn [files].
        erewrite new_events_app by (cbn [trace]; symmetry; apply app_nil_r).
        repeat split. now intros code [= <-]. }
    cbv zeta in Hrun. destruct (dlopen E (lib_path E) (files w)) as [msg|so].
    { injection Hrun as -> ->. cbn [files].
      erewrite new_events_app by reflexivity.
      repeat split. now intros code [= <-]. }
    destruct (dlsym so "api_compress_file"), (dlsym so "api_decompress_file");
      try discriminate; injection Hrun as -> ->; cbn [files];
      erewrite new_events_app by reflexivity;
      repeat split; intros code; discriminate.
Qed.

End HarnessOrder.

(** ** The layout of the demo's files under [posixpath] *)

Lemma posix_join1_relative (dir name other : list N) :
  startswith name [posixpath.sep] = false ->
  startswith other [posixpath.sep] = false ->
  posixpath.join1 dir name = posixpath.join1 dir other -> name = other.
Proof.
  unfold posixpath.join1. intros -> ->.
  destruct (match dir with [] => true | _ :: _ => endswith dir [posixpath.sep] end).
  - apply app_inv_head.
  - intros H. apply app_inv_head in H. now apply app_inv_head in H.
Qed.

(** X11: under [posixpath], whatever directory the script lives in, the
    fixture, the compressed file and the restored file are three different
    paths; so the Cleanup stage, which removes the latter two, never
    removes the fixture. *)
Theorem posix_cleanup_spares_fixture (E : env) (w : world) :
  let E_input := input_file (os_path := posixpath.os_path) E in
  let E_compressed := compressed_file (os_path := posixpath.os_path) E in
  let E_restored := restored_file (os_path := posixpath.os_path) E in
  E_input <> E_compressed /\
  E_input <> E_restored /\
  E_compressed <> E_restored /\
  files (snd (cleanup (os_path := posixpath.os_path) E w)) !! E_input =
    files w !! E_input.
Proof.
  cbv zeta.
  assert (H1 : input_file (os_path := posixpath.os_path) E <>
               compressed_file (os_path := posixpath.os_path) E).
  { intros H. apply posix_join1_relative in H; [discriminate H | reflexivity..]. }
  assert (H2 : input_file (os_path := posixpath.os_path) E <>
               restored_file (os_path := posixpath.os_path) E).
  { intros H. apply posix_join1_relative in H; [discriminate H | reflexivity..]. }
  assert (H3 : compressed_file (os_path := posixpath.os_path) E <>
               restored_file (os_path := posixpath.os_path) E).
  { intros H. apply posix_join1_relative in H; [discriminate H | reflexivity..]. }
  repeat split; try assumption.
  rewrite cleanup_exact. cbn [snd files].
  now rewrite !lookup_delete_ne by congruence.
Qed.

(** ** What crosses the foreign boundary *)

Lemma log2_lt_8 (a : N) : (a < 256)%N -> (N.log2 a < 8)%N.
Proof.
  intros H. destruct (N.eq_dec a 0%N) as [->|Hne]; [reflexivity|].
  apply N.log2_lt_pow2; [lia | exact H].
Qed.

Lemma lor_lt_256 (a b : N) : (a < 256)%N -> (b < 256)%N -> (N.lor a b < 256)%N.
Proof.
  intros Ha Hb. destruct (N.eq_dec (N.lor a b) 0%N) as [->|Hne]; [reflexivity|].
  change 256%N with (2 ^ 8)%N. apply N.log2_lt_pow2; [lia|].
  rewrite N.log2_lor. apply N.max_lub_lt; now apply log2_lt_8.
Qed.

Lemma land_3F_lt (a : N) : (N.land a 0x3F < 64)%N.
Proof.
  change 0x3F%N with (N.ones 6). rewrite N.land_ones.
  apply N.mod_upper_bound. discriminate.
Qed.

Lemma byte_of_N_to_N (n : N) : (n < 256)%N -> Byte.to_N (byte_of_N n) = n.
Proof.
  intros H. unfold byte_of_N.
  pose proof (Byte.to_of_N_option_map n) as Hn.
  destruct (Byte.of_N n) as [b|]; simpl in Hn.
  - destruct (n <=? 255)%N; [now injection Hn | discriminate].
  - destruct (n <=? 255)%N eqn:Hle; [discriminate|]. apply N.leb_gt in Hle. lia.
Qed.

Lemma byte_of_N_nonzero (n : N) : (n < 256)%N -> n <> 0%N -> byte_of_N n <> x00.
Proof.
  intros Hlt Hne Hb. apply (f_equal Byte.to_N) in Hb.
  rewrite byte_of_N_to_N in Hb by exact Hlt. now apply Hne.
Qed.

(** A continuation or lead byte of a multi-byte sequence is never NUL. *)
Lemma tagged_byte_nonzero (tag payload : N) :
  (tag < 256)%N -> tag <> 0%N -> (payload < 256)%N ->
  byte_of_N (N.lor tag payload) <> x00.
Proof.
  intros Ht Hne Hp. apply byte_of_N_nonzero.
  - now apply lor_lt_256.
  - intros H. apply N.lor_eq_0_iff in H. now destruct H.
Qed.

Lemma shiftr_lt (ch k bound : N) :
  (ch < bound * 2 ^ k)%N -> (N.shiftr ch k < bound)%N.
Proof.
  intros H. rewrite N.shiftr_div_pow2.
  apply N.Div0.div_lt_upper_bound. lia.
Qed.

(** The bytes of one encoded code point: NUL only for U+0000. *)
Lemma encode_char_nul (ch : N) (b : list byte) :
  (ch <= 0x10FFFF)%N -> encode_char ch = Some b -> (In x00 b <-> ch = 0%N).
Proof.
  intros Hmax. unfold encode_char.
  destruct (ch <? 0x80)%N eqn:H1.
  { apply N.ltb_lt in H1. intros [= <-]. simpl. split.
    - intros [H|[]]. apply (f_equal Byte.to_N) in H.
      rewrite byte_of_N_to_N in H by lia. exact H.
    - intros ->. now left. }
  apply N.ltb_ge in H1.
  assert (Hne : ch <> 0%N) by lia.
  pose proof (land_3F_lt ch) as L0.
  pose proof (land_3F_lt (N.shiftr ch 6)) as L6.
  pose proof (land_3F_lt (N.shiftr ch 12)) as L12.
  destruct (ch <? 0x800)%N eqn:H2.
  { apply N.ltb_lt in H2. intros [= <-]. split; [|tauto]. simpl.
    intros [H|[H|[]]]; apply tagged_byte_nonzero in H; try exact H; try lia.
    apply (shiftr_lt ch 6 256). lia. }
  destruct (ch <? 0x10000)%N eqn:H3.
  { apply N.ltb_lt in H3. destruct (is_surrogate ch); [discriminate|].
    intros [= <-]. split; [|tauto]. simpl.
    intros [H|[H|[H|[]]]]; apply tagged_byte_nonzero in H; try exact H; try lia.
    apply (shiftr_lt ch 12 256). lia. }
  intros [= <-]. split; [|tauto]. simpl.
  intros [H|[H|[H|[H|[]]]]]; apply tagged_byte_nonzero in H; try exact H; try lia.
  apply (shiftr_lt ch 18 256). lia.
Qed.

(** X12: the UTF-8 encoding of a path holds a NUL byte exactly when the
    path holds the character U+0000.  So for a path free of U+0000 the
    buffer handed to the native side has one NUL only, its terminator;
    a path with U+0000 is not refused: whatever the path holds,
    [compress] and [decompress] return and make their call on the
    encoding, NUL inside included, followed by the terminator. *)
Theorem encoded_path_nul_iff_nul_char (s : list N) (bs : list byte) :
  Forall (fun ch => (ch <= 0x10FFFF)%N) s ->
  encode_utf8 s = Some bs ->
  (In x00 bs <-> In 0%N s) /\
  (~ In 0%N s ->
   forall before after, c_char_p bs = before ++ x00 :: after -> after = [] /\ before = bs) /\
  (forall (lib : bound_library) (output_path : list N) (co : list byte) (w : world),
     encode_utf8 output_path = Some co ->
     (exists b, fst (compress lib s output_path w) = Ret b) /\
     new_events w (compress lib s output_path w) =
       [EvForeign "api_compress_file" (bs ++ [x00]) (co ++ [x00])] /\
     (exists b, fst (decompress lib s output_path w) = Ret b) /\
     new_events w (decompress lib s output_path w) =
       [EvForeign "api_decompress_file" (bs ++ [x00]) (co ++ [x00])]).
Proof.
  intros Hwf Henc.
  assert (Hiff : In x00 bs <-> In 0%N s).
  { clear - Hwf Henc. revert bs Henc.
    induction Hwf as [|ch s Hch Hwf IH]; intros bs; simpl.
    - intros [= <-]. tauto.
    - destruct (encode_char ch) as [b|] eqn:Hb; [|discriminate].
      destruct (encode_utf8 s) as [rest|]; [|discriminate].
      intros [= <-]. rewrite in_app_iff, (encode_char_nul ch b Hch Hb), (IH rest eq_refl).
      split; intros [H|H]; auto. }
  split; [exact Hiff|]. split.
  - intros Hfree before after Hsplit. rewrite <- Hiff in Hfree. clear Hiff Henc Hwf.
    unfold c_char_p in Hsplit. revert before Hsplit.
    induction bs as [|b bs IH]; intros before Hsplit.
    + destruct before as [|x before]; simpl in Hsplit.
      * injection Hsplit as <-. now split.
      * injection Hsplit as _ Hsplit. now destruct before.
    + destruct before as [|x before]; simpl in Hsplit.
      * injection Hsplit as Hb _. exfalso. apply Hfree. left. exact Hb.
      * injection Hsplit as <- Hsplit.
        destruct (IH (fun H => Hfree (or_intror H)) before Hsplit) as [-> ->].
        now split.
  - intros lib output_path co w Hout.
    rewrite compress_run, decompress_run. cbv zeta. rewrite Henc, Hout.
    unfold c_char_p.
    destruct (api_compress_file lib (bs ++ [x00]) (co ++ [x00]) (files w)) as [sc fc].
    destruct (api_decompress_file lib (bs ++ [x00]) (co ++ [x00]) (files w)) as [sd fd].
    erewrite !new_events_app by reflexivity. cbn [fst].
    repeat split; eauto.
Qed.

Lemma encode_utf8_ascii (s : list N) :
  Forall (fun ch => (ch < 0x80)%N) s -> encode_utf8 s = Some (map byte_of_N s).
Proof.
  induction 1 as [|ch s Hch _ IH]; simpl; [reflexivity|].
  rewrite IH. unfold encode_char. apply N.ltb_lt in Hch. now rewrite Hch.
Qed.

(** X13: an ASCII path crosses the boundary byte for byte: when every
    character of both paths is below U+0080, [compress] and [decompress]
    do not raise and make their one call on the paths' code points as
    bytes, each followed by NUL; nothing of the path is lost (the bytes
    read back as the code points). *)
Theorem ascii_paths_cross_bytewise
    (lib : bound_library) (input_path output_path : list N) (w : world) :
  Forall (fun ch => (ch < 0x80)%N) input_path ->
  Forall (fun ch => (ch < 0x80)%N) output_path ->
  new_events w (compress lib input_path output_path w) =
    [EvForeign "api_compress_file"
       (map byte_of_N input_path ++ [x00]) (map byte_of_N output_path ++ [x00])] /\
  new_events w (decompress lib input_path output_path w) =
    [EvForeign "api_decompress_file"
       (map byte_of_N input_path ++ [x00]) (map byte_of_N output_path ++ [x00])] /\
  map Byte.to_N (map byte_of_N input_path) = input_path /\
  map Byte.to_N (map byte_of_N output_path) = output_path.
Proof.
  intros Hi Ho.
  rewrite compress_run, decompress_run. cbv zeta.
  rewrite (encode_utf8_ascii _ Hi), (encode_utf8_ascii _ Ho). unfold c_char_p.
  destruct (api_compress_file lib _ _ (files w)) as [sc fc].
  destruct (api_decompress_file lib _ _ (files w)) as [sd fd].
  erewrite !new_events_app by reflexivity.
  split; [reflexivity|]. split; [reflexivity|].
  assert (Hback : forall s, Forall (fun ch => (ch < 0x80)%N) s ->
                            map Byte.to_N (map byte_of_N s) = s).
  { induction 1 as [|ch s Hch _ IH]; simpl; [reflexivity|].
    rewrite IH, byte_of_N_to_N by lia. reflexivity. }
  split; now apply Hback.
Qed.

(** X14: a bridge operation does not retry and calls nothing else: it
    makes exactly one outward call, to its own entry point, when it
    returns, and none when it raises; the files afterwards are what that
    one call left. *)
Theorem bridge_operation_calls_once
    (lib : bound_library) (input_path output_path : list N) (w : world) :
  let rc := compress lib input_path output_path w in
  let rd := decompress lib input_path output_path w in
  (forall b, fst rc = Ret b ->
     length (new_events w rc) = 1 /\ calls_to "api_compress_file" (new_events w rc) = 1) /\
  (forall e, fst rc = Raise e -> new_events w rc = [] /\ files (snd rc) = files w) /\
  (forall b, fst rd = Ret b ->
     length (new_events w rd) = 1 /\ calls_to "api_decompress_file" (new_events w rd) = 1) /\
  (forall e, fst rd = Raise e -> new_events w rd = [] /\ files (snd rd) = files w) /\
  calls_to "api_decompress_file" (new_events w rc) = 0 /\
  calls_to "api_compress_file" (new_events w rd) = 0.
Proof.
  cbv zeta. rewrite compress_run, decompress_run. cbv zeta.
  destruct (encode_utf8 input_path) as [ci|];
    [destruct (encode_utf8 output_path) as [co|]|].
  - destruct (api_compress_file lib (c_char_p ci) (c_char_p co) (files w)) as [sc fc].
    destruct (api_decompress_file lib (c_char_p ci) (c_char_p co) (files w)) as [sd fd].
    erewrite !new_events_app by reflexivity. cbn [fst snd files].
    repeat split; intros; discriminate.
  - erewrite !new_events_app by (cbn [trace]; symmetry; apply app_nil_r).
    cbn [fst snd files]. repeat split; intros; discriminate.
  - erewrite !new_events_app by (cbn [trace]; symmetry; apply app_nil_r).
    cbn [fst snd files]. repeat split; intros; discriminate.
Qed.

Lemma startswith_win_not_darwin (platform : list N) :
  startswith platform (lit "win") = true -> startswith platform (lit "darwin") = false.
Proof.
  destruct platform as [|c platform]; [discriminate|].
  change (lit "win") with (119 :: lit "in")%N.
  change (lit "darwin") with (100 :: lit "arwin")%N.
  cbn [startswith]. destruct (c =? 119)%N eqn:Hc; [|discriminate].
  apply N.eqb_eq in Hc. subst c. reflexivity.
Qed.

(** X15: the three branches of the library-name choice exclude one
    another and the three names differ, so the name tells the branch:
    it is [libhuffman.dll] exactly for identifiers starting with [win],
    [libhuffman.dylib] exactly for those starting with [darwin] (no
    identifier starts with both), and [libhuffman.so] exactly for all
    others. *)
Theorem lib_name_tells_platform (platform : list N) :
  (lib_name platform = lit "libhuffman.dll" <->
     startswith platform (lit "win") = true) /\
  (lib_name platform = lit "libhuffman.dylib" <->
     startswith platform (lit "darwin") = true) /\
  (lib_name platform = lit "libhuffman.so" <->
     startswith platform (lit "win") = false /\
     startswith platform (lit "darwin") = false) /\
  ~ (startswith platform (lit "win") = true /\
     startswith platform (lit "darwin") = true).
Proof.
  pose proof (startswith_win_not_darwin platform) as Hex.
  unfold lib_name.
  destruct (startswith platform (lit "win")) eqn:Hw.
  - rewrite (Hex eq_refl).
    repeat split; try discriminate; try tauto;
      try (intros H; vm_compute in H; discriminate).
    + intros [H _]; discriminate.
    + intros [_ H]; discriminate.
  - destruct (startswith platform (lit "darwin")) eqn:Hd.
    + repeat split; try discriminate; try tauto;
        try (intros H; vm_compute in H; discriminate).
      * intros [_ H]; discriminate.
      * intros [H _]; discriminate.
    + repeat split; try discriminate; try tauto;
        try (intros H; vm_compute in H; discriminate).
      intros [H _]; discriminate.
Qed.

(** ** Where the files are looked for, under [posixpath] *)

Lemma drop_until_sep_free (name rest : list N) :
  Forall (fun c => c <> posixpath.sep) name ->
  posixpath.drop_until_sep (name ++ posixpath.sep :: rest) = posixpath.sep :: rest.
Proof.
  induction 1 as [|c name Hc _ IH]; cbn [app posixpath.drop_until_sep].
  - now rewrite N.eqb_refl.
  - apply N.eqb_neq in Hc. now rewrite Hc.
Qed.

(** The directory of [dir/name], for a directory that does not end in a
    slash and a name without one. *)
Lemma posix_dirname_file (dir : list N) (c : N) (name : list N) :
  c <> posixpath.sep ->
  Forall (fun x => x <> posixpath.sep) name ->
  posixpath.dirname ((dir ++ [c]) ++ [posixpath.sep] ++ name) = dir ++ [c].
Proof.
  intros Hc Hname. unfold posixpath.dirname.
  rewrite !rev_app_distr. cbn [rev app]. rewrite <- app_assoc. cbn [app].
  rewrite drop_until_sep_free.
  2:{ now apply List.Forall_rev. }
  cbn [posixpath.lstrip_sep]. rewrite N.eqb_refl.
  cbn [posixpath.lstrip_sep]. apply N.eqb_neq in Hc. rewrite Hc.
  cbn [rev]. now rewrite rev_involutive.
Qed.

(** Joining a relative component to a path that does not end in a slash. *)
Lemma posix_join1_component (path : list N) (c : N) (d : N) (part : list N) :
  c <> posixpath.sep -> d <> posixpath.sep ->
  posixpath.join1 (path ++ [c]) (d :: part) = (path ++ [c]) ++ [posixpath.sep] ++ d :: part.
Proof.
  intros Hc Hd. unfold posixpath.join1, endswith.
  cbn [startswith]. apply N.eqb_neq in Hd. rewrite Hd. cbn [andb].
  rewrite rev_app_distr. cbn [rev app startswith].
  apply N.eqb_neq in Hc. rewrite Hc. cbn [andb].
  destruct (path ++ [c]) eqn:Hp; [now destruct path|]. reflexivity.
Qed.

(** X16: under [posixpath], with both modules in a directory [dir] (not
    ending in a slash) under file names without a slash, every file is
    looked for relative to that directory, never to the working
    directory: the library at [dir/../bin/<name>], the guard's file at
    [dir/../bin/libhuffman.so], the fixture and the two transient files
    under [dir/../test_files/]. *)
Theorem posix_paths_follow_module_directory
    (E : env) (dir : list N) (c : N) (wrapper_py demo_py : list N) :
  c <> posixpath.sep ->
  Forall (fun x => x <> posixpath.sep) wrapper_py ->
  Forall (fun x => x <> posixpath.sep) demo_py ->
  wrapper_file E = (dir ++ [c]) ++ [posixpath.sep] ++ wrapper_py ->
  demo_file E = (dir ++ [c]) ++ [posixpath.sep] ++ demo_py ->
  lib_path (os_path := posixpath.os_path) E =
    (dir ++ [c]) ++ lit "/../bin/" ++ lib_name (sys_platform E) /\
  guard_lib_path (os_path := posixpath.os_path) E =
    (dir ++ [c]) ++ lit "/../bin/libhuffman.so" /\
  input_file (os_path := posixpath.os_path) E =
    (dir ++ [c]) ++ lit "/../test_files/sample.txt" /\
  compressed_file (os_path := posixpath.os_path) E =
    (dir ++ [c]) ++ lit "/../test_files/sample_py.huff" /\
  restored_file (os_path := posixpath.os_path) E =
    (dir ++ [c]) ++ lit "/../test_files/restored_py.txt".
Proof.
  intros Hc Hw Hd Hwf Hdf.
  assert (Hup : posixpath.join1 (dir ++ [c]) (lit "..") =
                ((dir ++ [c]) ++ lit "/.") ++ [46%N]).
  { change (lit "..") with [46; 46]%N.
    rewrite posix_join1_component by (exact Hc || discriminate).
    now rewrite <- !app_assoc. }
  assert (Hbin : posixpath.join1 (((dir ++ [c]) ++ lit "/.") ++ [46%N]) (lit "bin") =
                 ((dir ++ [c]) ++ lit "/../bi") ++ [110%N]).
  { change (lit "bin") with [98; 105; 110]%N.
    rewrite posix_join1_component by discriminate.
    now rewrite <- !app_assoc. }
  assert (Htest : posixpath.join1 (((dir ++ [c]) ++ lit "/.") ++ [46%N]) (lit "test_files") =
                  ((dir ++ [c]) ++ lit "/../test_file") ++ [115%N]).
  { change (lit "test_files") with (116 :: lit "est_files")%N.
    rewrite posix_join1_component by discriminate.
    now rewrite <- !app_assoc. }
  unfold lib_path, guard_lib_path, input_file, compressed_file, restored_file,
    test_files_dir, base_dir.
  cbn [os_path_join os_path_dirname posixpath.os_path].
  rewrite Hwf, Hdf, !posix_dirname_file by assumption.
  unfold posixpath.join. cbn [fold_left]. rewrite Hup, Hbin, Htest.
  repeat split.
  - unfold lib_name.
    destruct (startswith (sys_platform E) (lit "win"));
      [|destruct (startswith (sys_platform E) (lit "darwin"))].
    + change (lit "libhuffman.dll") with (108 :: lit "ibhuffman.dll")%N.
      rewrite posix_join1_component by discriminate. now rewrite <- !app_assoc.
    + change (lit "libhuffman.dylib") with (108 :: lit "ibhuffman.dylib")%N.
      rewrite posix_join1_component by discriminate. now rewrite <- !app_assoc.
    + change (lit "libhuffman.so") with (108 :: lit "ibhuffman.so")%N.
      rewrite posix_join1_component by discriminate. now rewrite <- !app_assoc.
  - change (lit "libhuffman.so") with (108 :: lit "ibhuffman.so")%N.
    rewrite posix_join1_component by discriminate. now rewrite <- !app_assoc.
  - change (lit "sample.txt") with (115 :: lit "ample.txt")%N.
    rewrite posix_join1_component by discriminate. now rewrite <- !app_assoc.
  - change (lit "sample_py.huff") with (115 :: lit "ample_py.huff")%N.
    rewrite posix_join1_component by discriminate. now rewrite <- !app_assoc.
  - change (lit "restored_py.txt") with (114 :: lit "estored_py.txt")%N.
    rewrite posix_join1_component by discriminate. now rewrite <- !app_assoc.
Qed.

(** ** Concrete runs of the further properties *)

Section FurtherRuns.

Import Fixture Scenario.
Local Existing Instance posixpath.os_path.

Lemma loader_rejection_exits_witness :
  files (fresh (checkout "libhuffman.so")) !! lib_path (rejecting_env "linux" "wrong ELF class")
    = Some [] /\
  fst (import_wrapper (rejecting_env "linux" "wrong ELF class")
         (fresh (checkout "libhuffman.so"))) = Raise (SystemExit 1) /\
  stdout (snd (import_wrapper (rejecting_env "linux" "wrong ELF class")
                 (fresh (checkout "libhuffman.so")))) =
    [lit "Error loading C library: wrong ELF class";
     lit "This can happen if you are trying to run this on Windows *without* WSL."].
Proof.
  assert (H : files (fresh (checkout "libhuffman.so")) !!
                lib_path (rejecting_env "linux" "wrong ELF class") = Some [])
    by (vm_compute; reflexivity).
  split; [exact H|].
  destruct (loader_rejection_exits (rejecting_env "linux" "wrong ELF class")
              (fresh (checkout "libhuffman.so")) [] (lit "wrong ELF class") H eq_refl)
    as (Hrun & _).
  rewrite Hrun. split; reflexivity.
Defined.

Lemma missing_symbol_raises_attribute_error_witness :
  dlsym compress_only "api_decompress_file" = None /\
  fst (import_wrapper (compress_only_env "linux") (fresh (checkout "libhuffman.so"))) =
    Raise AttributeError /\
  stdout (snd (import_wrapper (compress_only_env "linux")
                 (fresh (checkout "libhuffman.so")))) = [].
Proof.
  assert (H : files (fresh (checkout "libhuffman.so")) !!
                lib_path (compress_only_env "linux") = Some [])
    by (vm_compute; reflexivity).
  split; [reflexivity|].
  destruct (missing_symbol_raises_attribute_error (compress_only_env "linux")
              (fresh (checkout "libhuffman.so")) [] compress_only H eq_refl
              (or_intror eq_refl))
    as (Hrun & _).
  rewrite Hrun. split; reflexivity.
Defined.

Lemma decompress_failure_aborts_at_decompress_witness :
  exists w1 w2,
    files (fresh (checkout "libhuffman.so")) !! input_file (install "linux" decompress_fails)
      <> None /\
    compress decompress_fails (input_file (install "linux" decompress_fails))
      (compressed_file (install "linux" decompress_fails))
      (snd (print banner (fresh (checkout "libhuffman.so")))) = (Ret true, w1) /\
    decompress decompress_fails (compressed_file (install "linux" decompress_fails))
      (restored_file (install "linux" decompress_fails)) w1 = (Ret false, w2) /\
    run_demo (install "linux" decompress_fails) decompress_fails
      (fresh (checkout "libhuffman.so")) =
      (Ret tt, snd (print (lit "Demo failed during decompression.") w2)) /\
    comparisons
      (new_events (fresh (checkout "libhuffman.so"))
         (run_demo (install "linux" decompress_fails) decompress_fails
            (fresh (checkout "libhuffman.so")))) = 0.
Proof.
  pose (E := install "linux" decompress_fails).
  pose (w1 := snd (compress decompress_fails (input_file E) (compressed_file E)
                     (snd (print banner (fresh (checkout "libhuffman.so")))))).
  pose (w2 := snd (decompress decompress_fails (compressed_file E) (restored_file E) w1)).
  exists w1, w2.
  assert (H1 : files (fresh (checkout "libhuffman.so")) !! input_file E <> None)
    by (vm_compute; discriminate).
  assert (H2 : compress decompress_fails (input_file E) (compressed_file E)
                 (snd (print banner (fresh (checkout "libhuffman.so")))) = (Ret true, w1))
    by (vm_compute; reflexivity).
  assert (H3 : decompress decompress_fails (compressed_file E) (restored_file E) w1 =
               (Ret false, w2))
    by (vm_compute; reflexivity).
  split; [exact H1|]. split; [exact H2|]. split; [exact H3|].
  destruct (decompress_failure_aborts_at_decompress E decompress_fails
              (fresh (checkout "libhuffman.so")) w1 w2 H1 H2 H3)
    as (Hrun & _ & _ & Hcmp & _).
  split; [exact Hrun | exact Hcmp].
Defined.


Lemma entry_guard_never_fires_for_so_witness :
  exists w1,
    import_wrapper (install "linux" healthy_library) (fresh (checkout "libhuffman.so")) =
      (Ret healthy_library, w1) /\
    demo_main (install "linux" healthy_library) (fresh (checkout "libhuffman.so")) =
      run_demo (install "linux" healthy_library) healthy_library w1.
Proof.
  pose (E := install "linux" healthy_library).
  pose (w1 := snd (import_wrapper E (fresh (checkout "libhuffman.so")))).
  exists w1.
  assert (H : import_wrapper E (fresh (checkout "libhuffman.so")) = (Ret healthy_library, w1))
    by (vm_compute; reflexivity).
  split; [exact H|].
  assert (Hdir : os_path_dirname (wrapper_file E) = os_path_dirname (demo_file E))
    by (vm_compute; reflexivity).
  assert (Hname : lib_name (sys_platform E) = lit "libhuffman.so")
    by (vm_compute; reflexivity).
  destruct (entry_guard_never_fires_for_so E (fresh (checkout "libhuffman.so")) w1
              healthy_library Hdir Hname H)
    as (_ & _ & Hmain).
  exact Hmain.
Defined.

Lemma encoded_path_nul_iff_nul_char_witness :
  encode_utf8 [47; 0xE9; 0x20AC]%N =
    Some ["/"; "195"; "169"; "226"; "130"; "172"]%byte /\
  ~ In x00 ["/"; "195"; "169"; "226"; "130"; "172"]%byte /\
  encode_utf8 [97; 0; 98]%N = Some ["a"; x00; "b"]%byte /\
  new_events (fresh (checkout "libhuffman.so"))
    (compress healthy_library [97; 0; 98]%N [47; 98]%N (fresh (checkout "libhuffman.so"))) =
    [EvForeign "api_compress_file" ["a"; x00; "b"; x00]%byte ["/"; "b"; x00]%byte].
Proof.
  assert (Hwf : Forall (fun ch => (ch <= 0x10FFFF)%N) [47; 0xE9; 0x20AC]%N)
    by (repeat (constructor; [lia|]); constructor).
  assert (Henc : encode_utf8 [47; 0xE9; 0x20AC]%N =
                 Some ["/"; "195"; "169"; "226"; "130"; "172"]%byte)
    by (vm_compute; reflexivity).
  assert (Hwf0 : Forall (fun ch => (ch <= 0x10FFFF)%N) [97; 0; 98]%N)
    by (repeat (constructor; [lia|]); constructor).
  assert (Henc0 : encode_utf8 [97; 0; 98]%N = Some ["a"; x00; "b"]%byte)
    by (vm_compute; reflexivity).
  split; [exact Henc|]. split.
  - destruct (encoded_path_nul_iff_nul_char _ _ Hwf Henc) as (Hiff & _).
    intros Hin. apply Hiff in Hin.
    repeat (destruct Hin as [Hin|Hin]; [discriminate Hin|]). exact Hin.
  - split; [exact Henc0|].
    destruct (encoded_path_nul_iff_nul_char _ _ Hwf0 Henc0) as (_ & _ & Hcall).
    destruct (Hcall healthy_library [47; 98]%N ["/"; "b"]%byte
                (fresh (checkout "libhuffman.so")) eq_refl) as (_ & Hev & _).
    exact Hev.
Defined.

Lemma ascii_paths_cross_bytewise_witness :
  new_events (fresh (checkout "libhuffman.so"))
    (compress healthy_library [47; 97]%N [47; 98]%N (fresh (checkout "libhuffman.so"))) =
    [EvForeign "api_compress_file" ["/"; "a"; x00]%byte ["/"; "b"; x00]%byte].
Proof.
  assert (Ha : Forall (fun ch => (ch < 0x80)%N) [47; 97]%N)
    by (repeat (constructor; [lia|]); constructor).
  assert (Hb : Forall (fun ch => (ch < 0x80)%N) [47; 98]%N)
    by (repeat (constructor; [lia|]); constructor).
  destruct (ascii_paths_cross_bytewise healthy_library _ _
              (fresh (checkout "libhuffman.so")) Ha Hb) as (Hc & _).
  rewrite Hc. reflexivity.
Defined.

Lemma posix_paths_follow_module_directory_witness :
  lib_path (install "darwin" healthy_library) = lit "/repo/python/../bin/libhuffman.dylib" /\
  guard_lib_path (install "darwin" healthy_library) = lit "/repo/python/../bin/libhuffman.so" /\
  input_file (install "darwin" healthy_library) = lit "/repo/python/../test_files/sample.txt".
Proof.
  destruct (posix_paths_follow_module_directory (install "darwin" healthy_library)
              (lit "/repo/pytho") 110%N (lit "wrapper.py") (lit "demo.py"))
    as (Hlib & Hguard & Hin & _).
  - discriminate.
  - change (lit "wrapper.py") with [119; 114; 97; 112; 112; 101; 114; 46; 112; 121]%N.
    repeat (constructor; [discriminate|]). constructor.
  - change (lit "demo.py") with [100; 101; 109; 111; 46; 112; 121]%N.
    repeat (constructor; [discriminate|]). constructor.
  - reflexivity.
  - reflexivity.
  - rewrite Hlib, Hguard, Hin. repeat split; reflexivity.
Defined.

Lemma cleanup_removes_only_transients_witness :
  exists w2,
    decompress healthy_library (compressed_file (install "linux" healthy_library))
      (restored_file (install "linux" healthy_library))
      (snd (compress healthy_library (input_file (install "linux" healthy_library))
              (compressed_file (install "linux" healthy_library))
              (fresh (checkout "libhuffman.so")))) = (Ret true, w2) /\
    files w2 !! compressed_file (install "linux" healthy_library) = Some sample /\
    files w2 !! restored_file (install "linux" healthy_library) = Some sample /\
    fst (cleanup (install "linux" healthy_library) w2) = Ret tt /\
    files (snd (cleanup (install "linux" healthy_library) w2)) !!
      compressed_file (install "linux" healthy_library) = None /\
    files (snd (cleanup (install "linux" healthy_library) w2)) !!
      restored_file (install "linux" healthy_library) = None /\
    files (snd (cleanup (install "linux" healthy_library) w2)) !!
      input_file (install "linux" healthy_library) = Some sample.
Proof.
  pose (E := install "linux" healthy_library).
  pose (w2 := snd (decompress healthy_library (compressed_file E) (restored_file E)
                     (snd (compress healthy_library (input_file E) (compressed_file E)
                             (fresh (checkout "libhuffman.so")))))).
  exists w2.
  assert (Hret : fst (cleanup E w2) = Ret tt) by (vm_compute; reflexivity).
  destruct (cleanup_removes_only_transients E w2) as (_ & _ & Hgone).
  destruct (Hgone Hret) as (Hc & Hr & _).
  split; [vm_compute; reflexivity|]. split; [vm_compute; reflexivity|].
  split; [vm_compute; reflexivity|]. split; [exact Hret|].
  split; [exact Hc|]. split; [exact Hr|]. vm_compute; reflexivity.
Defined.

Lemma demo_script_exits_only_from_import_witness :
  fst (demo_main (install "linux" healthy_library) (fresh ∅)) = Raise (SystemExit 1) /\
  demo_main (install "linux" healthy_library) (fresh ∅) =
    (Raise (SystemExit 1), snd (import_wrapper (install "linux" healthy_library) (fresh ∅))) /\
  new_events (fresh ∅) (demo_main (install "linux" healthy_library) (fresh ∅)) = [].
Proof.
  assert (H : fst (demo_main (install "linux" healthy_library) (fresh ∅)) =
              Raise (SystemExit 1)) by (vm_compute; reflexivity).
  destruct (demo_script_exits_only_from_import (install "linux" healthy_library)
              (fresh ∅) (SystemExit 1) H (or_introl (ex_intro _ 1%Z eq_refl)))
    as (_ & Hmain & _).
  split; [exact H|]. split; [exact Hmain|]. vm_compute; reflexivity.
Defined.

(** C10, the claim as stated fails: on [darwin] the bridge resolves
    [libhuffman.dylib], that file exists and the import succeeds; with a
    [libhuffman.so] also in [bin/], the entry guard reports nothing
    missing and runs the harness: the banner is printed, both entry points
    are called, and neither line of the guard's message appears. *)
Lemma guard_passes_on_darwin_beside_so :
  lib_name (sys_platform (install "darwin" healthy_library)) = lit "libhuffman.dylib" /\
  lib_path (install "darwin" healthy_library) = lit "/repo/python/../bin/libhuffman.dylib" /\
  files (fresh both_libraries) !! lib_path (install "darwin" healthy_library) = Some [] /\
  fst (import_wrapper (install "darwin" healthy_library) (fresh both_libraries)) =
    Ret healthy_library /\
  fst (demo_main (install "darwin" healthy_library) (fresh both_libraries)) = Ret tt /\
  head (stdout (snd (demo_main (install "darwin" healthy_library) (fresh both_libraries)))) =
    Some banner /\
  calls_to "api_compress_file"
    (trace (snd (demo_main (install "darwin" healthy_library) (fresh both_libraries)))) = 1 /\
  calls_to "api_decompress_file"
    (trace (snd (demo_main (install "darwin" healthy_library) (fresh both_libraries)))) = 1 /\
  List.existsb (fun line => bool_decide (In line guard_lines))
    (stdout (snd (demo_main (install "darwin" healthy_library) (fresh both_libraries)))) = false.
Proof. repeat split; vm_compute; reflexivity. Qed.

End FurtherRuns.
